(** * gofman: credentials, sessions and the authorization policy

    A shallow embedding of the security core of the gofman media-library
    backend: package [gofman] (errors, request context, authorization
    predicates), package [auth] (random bytes, Argon2id key strings) and the
    [authenticate] middleware of package [http].

    Go strings are byte sequences and are modelled by [string] (a list of
    8-bit [ascii]); [[]byte] is [list byte]; Go integers are [Z] with their
    width written out where the code depends on it. *)

From Stdlib Require Import ZArith List Bool Lia.
From Stdlib.Strings Require Import String Ascii Byte.
From Stdlib Require Import DecimalString DecimalFacts DecimalPos DecimalN DecimalZ.
Import ListNotations.
Local Open Scope string_scope.

(** ** The Go runtime as far as the code relies on it *)
Module Go.

(** A call returns normally or panics (nil dereference, [make] with a
    negative length, a panic raised by a library). *)
Inductive outcome (A : Type) : Type :=
| Return (a : A)
| Panic (msg : string).
Arguments Return {A} a.
Arguments Panic {A} msg.

Definition bind {A B} (m : outcome A) (k : A -> outcome B) : outcome B :=
  match m with
  | Return a => k a
  | Panic msg => Panic msg
  end.

(** Dereferencing a pointer: [None] is the nil pointer. *)
Definition deref {A} (p : option A) : outcome A :=
  match p with
  | Some a => Return a
  | None => Panic "invalid memory address or nil pointer dereference"
  end.

(** [*string] values.  A pointer is nil or the address of a string
    variable; the store lists the string variables alive so far, a variable's
    address being its position.  Taking the address of a new local variable
    allocates the next position. *)
Definition addr := nat.
Definition ptr := option addr.
Definition store := list string.

Definition alloc (h : store) (v : string) : store * addr :=
  ((h ++ [v])%list, List.length h).

Definition load (h : store) (p : ptr) : outcome string :=
  match p with
  | Some a => deref (nth_error h a)
  | None => deref None
  end.

(** Pointer equality [p == q]: same address, or both nil. *)
Definition ptr_eqb (p q : ptr) : bool :=
  match p, q with
  | None, None => true
  | Some a, Some b => Nat.eqb a b
  | _, _ => false
  end.

(** Go has no dangling pointers: a pointer held by a value built before a
    call points into the store as it is at the call. *)
Definition valid_ptr (h : store) (p : ptr) : Prop :=
  match p with
  | None => True
  | Some a => a < List.length h
  end.

End Go.

Notation "x <- m ;;; k" := (Go.bind m (fun x => k))
  (at level 61, m at next level, right associativity).

(** ** package gofman *)
Module gofman.
Import Go.

(** *** error.go *)
Definition ECONFLICT := "conflict".
Definition EINTERNAL := "internal".
Definition EINVALID := "invalid".
Definition ENOTFOUND := "not_found".
Definition ENOTIMPLEMENTED := "not_implemented".
Definition EUNAUTHORIZED := "unauthorized".

(** A Go [error] value: an application [*Error], or an error made by a
    library ([fmt], [encoding/base64], [crypto/rand]), of which only the
    package of origin is kept. *)
Inductive error : Type :=
| Error (Code : string) (Message : string)
| LibError (pkg : string).

(** [ErrorCode]; the argument is [None] for a nil error. *)
Definition ErrorCode (err : option error) : string :=
  match err with
  | None => ""
  | Some (Error c _) => c
  | Some (LibError _) => EINTERNAL
  end.

Definition ErrorMessage (err : option error) : string :=
  match err with
  | None => ""
  | Some (Error _ m) => m
  | Some (LibError _) => "Internal error."
  end.

(** [NewError] for the format strings without verbs used by the core. *)
Definition NewError (code format : string) : error := Error code format.

(** *** user.go, auth.go (Session, File), tag.go, actor.go: the records *)
Record User := mkUser {
  User_ID : string;
  User_Username : string;
  User_Password : string;
  User_IsAdmin : bool;
  User_IsDemo : bool;
  User_CreatedAt : Z;
  User_UpdatedAt : Z;
  User_RemovedAt : Z
}.

Record Session := mkSession {
  Session_ID : string;
  Session_UserID : string;
  Session_Token : string;
  Session_CreatedAt : Z
}.

Record File := mkFile {
  File_ID : string;
  File_UserID : string;
  File_Name : string;
  File_Type : string;
  File_Path : string;
  File_Checksum : string;
  File_CreatedAt : Z;
  File_UpdatedAt : Z;
  File_RemovedAt : Z
}.

Record Tag := mkTag {
  Tag_ID : string;
  Tag_UserID : string;
  Tag_Name : string;
  Tag_CreatedAt : Z;
  Tag_UpdatedAt : Z;
  Tag_RemovedAt : Z
}.

Record Actor := mkActor {
  Actor_ID : string;
  Actor_UserID : string;
  Actor_Name : string;
  Actor_CreatedAt : Z;
  Actor_UpdatedAt : Z;
  Actor_RemovedAt : Z
}.

(** The filters; the optional fields are [*string]. *)
Record UserFilter := mkUserFilter {
  UserFilter_ID : ptr;
  UserFilter_Username : ptr;
  UserFilter_Offset : Z;
  UserFilter_Limit : Z
}.

Record FileFilter := mkFileFilter {
  FileFilter_ID : ptr;
  FileFilter_UserID : ptr;
  FileFilter_Type : ptr;
  FileFilter_Offset : Z;
  FileFilter_Limit : Z
}.

Record TagFilter := mkTagFilter {
  TagFilter_ID : ptr;
  TagFilter_UserID : ptr;
  TagFilter_Offset : Z;
  TagFilter_Limit : Z
}.

Record ActorFilter := mkActorFilter {
  ActorFilter_ID : ptr;
  ActorFilter_UserID : ptr;
  ActorFilter_Offset : Z;
  ActorFilter_Limit : Z
}.

(** *** context.go *)
Inductive contextKey : Type :=
| requestIDContextKey
| userContextKey
| sessionContextKey.

Definition contextKey_eqb (a b : contextKey) : bool :=
  match a, b with
  | requestIDContextKey, requestIDContextKey => true
  | userContextKey, userContextKey => true
  | sessionContextKey, sessionContextKey => true
  | _, _ => false
  end.

(** The values the package stores in a context; a stored pointer may be
    nil. *)
Inductive value : Type :=
| StringValue (s : string)
| UserValue (u : option User)
| SessionValue (s : option Session).

(** A [context.Context] is the chain of [WithValue] bindings, the latest
    first; [Value] returns the first binding of the key. *)
Definition Context := list (contextKey * value).

Definition WithValue (ctx : Context) (k : contextKey) (v : value) : Context :=
  (k, v) :: ctx.

Fixpoint Value (ctx : Context) (k : contextKey) : option value :=
  match ctx with
  | [] => None
  | (k', v) :: parent => if contextKey_eqb k' k then Some v else Value parent k
  end.

Definition NewContextWithRequestID (ctx : Context) (v : string) : Context :=
  WithValue ctx requestIDContextKey (StringValue v).

Definition RequestIDFromContext (ctx : Context) : string :=
  match Value ctx requestIDContextKey with
  | Some (StringValue s) => s
  | _ => ""
  end.

Definition NewContextWithUser (ctx : Context) (user : option User) : Context :=
  WithValue ctx userContextKey (UserValue user).

Definition UserFromContext (ctx : Context) : option User :=
  match Value ctx userContextKey with
  | Some (UserValue u) => u
  | _ => None
  end.

Definition UserIDFromContext (ctx : Context) : string :=
  match UserFromContext ctx with
  | Some user => User_ID user
  | None => ""
  end.

Definition NewContextWithSession (ctx : Context) (session : option Session)
  : Context :=
  WithValue ctx sessionContextKey (SessionValue session).

Definition SessionFromContext (ctx : Context) : option Session :=
  match Value ctx sessionContextKey with
  | Some (SessionValue s) => s
  | _ => None
  end.

(** [user != nil && user.IsDemo] *)
Definition isDemo (user : option User) : bool :=
  match user with
  | Some u => User_IsDemo u
  | None => false
  end.

(** *** user.go: the user predicates *)

(** [filter.ID == &id] compares the filter's pointer with the address of
    the local variable [id], which is allocated by the call. *)
Definition CanFindUser (h : store) (ctx : Context) (filter : UserFilter) : bool :=
  let id := UserIDFromContext ctx in
  let '(_, p) := alloc h id in
  if ptr_eqb (UserFilter_ID filter) (Some p) then true
  else match UserFromContext ctx with
       | Some user => User_IsAdmin user
       | None => false
       end.

Definition CanCreateUser (ctx : Context) : bool :=
  match UserFromContext ctx with
  | Some user => User_IsAdmin user
  | None => false
  end.

(** The [user] declared by the first [if] is in scope in the whole
    if/else chain and hides the parameter: [user.ID] in the second
    condition reads the context's user, through a pointer that is nil for
    a context without one. *)
Definition CanUpdateUser (ctx : Context) (user : option User)
  : outcome bool :=
  let user1 := UserFromContext ctx in
  if isDemo user1 then Return false
  else
    let id := UserIDFromContext ctx in
    u <- deref user1 ;;;
    if String.eqb (User_ID u) id then Return true
    else
      match UserFromContext ctx with
      | Some user3 => Return (User_IsAdmin user3)
      | None => Return false
      end.

(** *** auth.go: sessions and files *)
Definition CanDeleteSession (ctx : Context) (session : option Session)
  : outcome bool :=
  let id := UserIDFromContext ctx in
  if negb (String.eqb id "") then
    s <- deref session ;;;
    if String.eqb (Session_UserID s) id then Return true else Return false
  else Return false.

Definition CanFindFile (h : store) (ctx : Context) (filter : FileFilter)
  : bool :=
  let id := UserIDFromContext ctx in
  let '(_, p) := alloc h id in
  negb (String.eqb id "") && ptr_eqb (FileFilter_UserID filter) (Some p).

Definition CanUpdateFile (ctx : Context) (file : option File)
  : outcome bool :=
  if isDemo (UserFromContext ctx) then Return false
  else
    let id := UserIDFromContext ctx in
    if negb (String.eqb id "") then
      f <- deref file ;;; Return (String.eqb (File_UserID f) id)
    else Return false.

(** *** tag.go *)
Definition CanFindTag (h : store) (ctx : Context) (filter : TagFilter)
  : bool :=
  let id := UserIDFromContext ctx in
  let '(_, p) := alloc h id in
  negb (String.eqb id "") && ptr_eqb (TagFilter_UserID filter) (Some p).

Definition CanUpdateTag (ctx : Context) (tag : option Tag) : outcome bool :=
  if isDemo (UserFromContext ctx) then Return false
  else
    let id := UserIDFromContext ctx in
    if negb (String.eqb id "") then
      t <- deref tag ;;; Return (String.eqb (Tag_UserID t) id)
    else Return false.

(** *** actor.go *)
Definition CanFindActor (h : store) (ctx : Context) (filter : ActorFilter)
  : bool :=
  let id := UserIDFromContext ctx in
  let '(_, p) := alloc h id in
  negb (String.eqb id "") && ptr_eqb (ActorFilter_UserID filter) (Some p).

Definition CanUpdateActor (ctx : Context) (actor : option Actor)
  : outcome bool :=
  if isDemo (UserFromContext ctx) then Return false
  else
    let id := UserIDFromContext ctx in
    if negb (String.eqb id "") then
      a <- deref actor ;;; Return (String.eqb (Actor_UserID a) id)
    else Return false.

End gofman.

(** ** package strings *)
Module strings.

(** [strings.Split(s, sep)] for a one-byte separator: the pieces of [s]
    between the occurrences of [sep], one more than there are
    occurrences. *)
Fixpoint Split (s : string) (sep : ascii) : list string :=
  match s with
  | EmptyString => [EmptyString]
  | String c rest =>
      if Ascii.eqb c sep then EmptyString :: Split rest sep
      else match Split rest sep with
           | seg :: segs => String c seg :: segs
           | [] => [String c EmptyString]
           end
  end.

End strings.

(** ** package encoding/base64: RawURLEncoding *)
Module base64.

Definition encodeURL : string :=
  "ABCDEFGHIJKLMNOPQRSTUVWXYZabcdefghijklmnopqrstuvwxyz0123456789-_".

Definition Z_of_byte (b : byte) : Z := Z.of_N (Byte.to_N b).

(** [byte(x)]: the low eight bits. *)
Definition byte_of_Z (x : Z) : byte :=
  match Byte.of_N (Z.to_N (Z.land x 255)) with
  | Some b => b
  | None => x00
  end.

(** [enc.encode[v]] *)
Definition encodeChar (v : Z) : ascii :=
  match String.get (Z.to_nat v) encodeURL with
  | Some c => c
  | None => "A"%char
  end.

(** [enc.decodeMap[c]], [None] standing for the entry 0xFF. *)
Fixpoint indexFrom (c : ascii) (alphabet : string) (i : Z) : option Z :=
  match alphabet with
  | EmptyString => None
  | String a rest => if Ascii.eqb a c then Some i else indexFrom c rest (i + 1)
  end.

Definition decodeChar (c : ascii) : option Z := indexFrom c encodeURL 0.

(** [Encode] without padding: three bytes give four characters, a
    remainder of one byte gives two and of two bytes three. *)
Fixpoint EncodeToString (src : list byte) : string :=
  match src with
  | [] => EmptyString
  | [b0] =>
      let val := Z.shiftl (Z_of_byte b0) 16 in
      String (encodeChar (Z.land (Z.shiftr val 18) 63))
        (String (encodeChar (Z.land (Z.shiftr val 12) 63)) EmptyString)
  | [b0; b1] =>
      let val := Z.lor (Z.shiftl (Z_of_byte b0) 16) (Z.shiftl (Z_of_byte b1) 8) in
      String (encodeChar (Z.land (Z.shiftr val 18) 63))
        (String (encodeChar (Z.land (Z.shiftr val 12) 63))
           (String (encodeChar (Z.land (Z.shiftr val 6) 63)) EmptyString))
  | b0 :: b1 :: b2 :: rest =>
      let val :=
        Z.lor (Z.lor (Z.shiftl (Z_of_byte b0) 16) (Z.shiftl (Z_of_byte b1) 8))
          (Z_of_byte b2) in
      String (encodeChar (Z.land (Z.shiftr val 18) 63))
        (String (encodeChar (Z.land (Z.shiftr val 12) 63))
           (String (encodeChar (Z.land (Z.shiftr val 6) 63))
              (String (encodeChar (Z.land val 63)) (EncodeToString rest))))
  end.

(** The decoder reads the input left to right, drops carriage returns and
    line feeds, and maps every other character through [decodeMap]; a
    character outside the alphabet (the padding character included) is a
    [CorruptInputError]. *)
Fixpoint sextets (s : string) : option (list Z) :=
  match s with
  | EmptyString => Some []
  | String c rest =>
      if Ascii.eqb c "010"%char || Ascii.eqb c "013"%char then sextets rest
      else match decodeChar c with
           | None => None
           | Some v => option_map (cons v) (sextets rest)
           end
  end.

(** The quanta: four characters give three bytes; at the end of the input
    two characters give one byte and three give two, the unused low bits
    not being checked; a single character is a [CorruptInputError]. *)
Fixpoint quanta (l : list Z) : option (list byte) :=
  match l with
  | [] => Some []
  | [_] => None
  | [q0; q1] =>
      let val := Z.lor (Z.shiftl q0 18) (Z.shiftl q1 12) in
      Some [byte_of_Z (Z.shiftr val 16)]
  | [q0; q1; q2] =>
      let val := Z.lor (Z.lor (Z.shiftl q0 18) (Z.shiftl q1 12)) (Z.shiftl q2 6) in
      Some [byte_of_Z (Z.shiftr val 16); byte_of_Z (Z.shiftr val 8)]
  | q0 :: q1 :: q2 :: q3 :: rest =>
      let val :=
        Z.lor (Z.lor (Z.lor (Z.shiftl q0 18) (Z.shiftl q1 12)) (Z.shiftl q2 6)) q3 in
      option_map
        (fun tl => byte_of_Z (Z.shiftr val 16) :: byte_of_Z (Z.shiftr val 8)
                   :: byte_of_Z val :: tl)
        (quanta rest)
  end.

(** [Decode] without an error: the bytes; [None] is a
    [CorruptInputError]. *)
Definition decoded (s : string) : option (list byte) :=
  match sextets s with
  | Some l => quanta l
  | None => None
  end.

(** What the decoder has read when it stops: the sextets of the input up
    to the first byte that is neither of the alphabet nor a line break. *)
Fixpoint validSextets (s : string) : list Z :=
  match s with
  | EmptyString => []
  | String c rest =>
      if Ascii.eqb c "010"%char || Ascii.eqb c "013"%char
      then validSextets rest
      else match decodeChar c with
           | None => []
           | Some v => v :: validSextets rest
           end
  end.

(** What the decoder has written when it stops: three bytes for every
    complete quantum read; nothing is written for the quantum in which
    the error is found. *)
Fixpoint fullQuanta (l : list Z) : list byte :=
  match l with
  | q0 :: q1 :: q2 :: q3 :: rest =>
      let val :=
        Z.lor (Z.lor (Z.lor (Z.shiftl q0 18) (Z.shiftl q1 12)) (Z.shiftl q2 6)) q3 in
      byte_of_Z (Z.shiftr val 16) :: byte_of_Z (Z.shiftr val 8)
        :: byte_of_Z val :: fullQuanta rest
  | _ => []
  end.

(** [DecodeString] returns [dbuf[:n], err]: with a [CorruptInputError],
    the bytes written before it. *)
Definition DecodeString (s : string) : list byte * option gofman.error :=
  match decoded s with
  | Some b => (b, None)
  | None => (fullQuanta (validSextets s),
             Some (gofman.LibError "encoding/base64"))
  end.

End base64.

(** ** package strconv, base 10 *)
Module strconv.

Definition digitValue (c : ascii) : option Z :=
  let n := Z.of_N (N_of_ascii c) in
  if (48 <=? n)%Z && (n <=? 57)%Z then Some (n - 48)%Z else None.

(** The digit loop of [ParseUint]: [None] is a syntax error (a byte that
    is no decimal digit, the underscore included, base 10 being given). *)
Fixpoint digitsFrom (s : string) (acc : Z) : option Z :=
  match s with
  | EmptyString => Some acc
  | String c rest =>
      match digitValue c with
      | None => None
      | Some d => digitsFrom rest (acc * 10 + d)%Z
      end
  end.

(** [ParseUint(s, 10, 64)]; [None] for a syntax or range error. *)
Definition ParseUint (s : string) : option Z :=
  match s with
  | EmptyString => None
  | _ =>
      match digitsFrom s 0 with
      | Some n => if (n <? 2 ^ 64)%Z then Some n else None
      | None => None
      end
  end.

(** [ParseInt(s, 10, 64)] *)
Definition ParseInt (s : string) : option Z :=
  match s with
  | EmptyString => None
  | String c rest =>
      let neg := Ascii.eqb c "-"%char in
      let s1 := if Ascii.eqb c "+"%char || neg then rest else s in
      match ParseUint s1 with
      | None => None
      | Some un =>
          if negb neg && (2 ^ 63 <=? un)%Z then None
          else if neg && (2 ^ 63 <? un)%Z then None
          else Some (if neg then (- un)%Z else un)
      end
  end.

End strconv.

(** ** package fmt: [Sprintf] and [Sscanf] for the verb [%d] *)
Module fmt.

(** [%d] of [Sprintf]: decimal, with a minus sign for a negative number. *)
Definition formatInt (z : Z) : string :=
  DecimalString.NilZero.string_of_int (Z.to_int z).

(** [SkipSpace] of a scanner made by [Sscanf] (a newline is no space
    there): the input after the leading space characters, which are those
    of [isSpace], read as UTF-8; [None] is the error "unexpected
    newline". *)
Fixpoint SkipSpace (s : string) : option string :=
  match s with
  | EmptyString => Some s
  | String c1 rest1 =>
      let n1 := N_of_ascii c1 in
      if (n1 =? 10)%N then None
      else if ((9 <=? n1) && (n1 <=? 13) || (n1 =? 32))%N then SkipSpace rest1
      else
        match rest1 with
        | EmptyString => Some s
        | String c2 rest2 =>
            let n2 := N_of_ascii c2 in
            if ((n1 =? 194) && ((n2 =? 133) || (n2 =? 160)))%N
            then SkipSpace rest2
            else
              match rest2 with
              | EmptyString => Some s
              | String c3 rest3 =>
                  let n3 := N_of_ascii c3 in
                  if ((n1 =? 225) && (n2 =? 154) && (n3 =? 128)
                      || (n1 =? 226) && (n2 =? 128)
                         && ((128 <=? n3) && (n3 <=? 138)
                             || (n3 =? 168) || (n3 =? 169) || (n3 =? 175))
                      || (n1 =? 226) && (n2 =? 129) && (n3 =? 159)
                      || (n1 =? 227) && (n2 =? 128) && (n3 =? 128))%N
                  then SkipSpace rest3
                  else Some s
              end
        end
  end.

(** [decimalDigits]: the bytes [scanNumber] accepts for [%d]. *)
Definition decimalDigits : string := "0123456789".
Definition sign : string := "+-".

Fixpoint indexByte (set : string) (c : ascii) : bool :=
  match set with
  | EmptyString => false
  | String a rest => Ascii.eqb a c || indexByte rest c
  end.

(** [for s.accept(ok) {}]: the accepted bytes and the rest of the input. *)
Fixpoint acceptAll (ok : string) (s : string) : string * string :=
  match s with
  | EmptyString => (EmptyString, EmptyString)
  | String c rest =>
      if indexByte ok c
      then let '(tok, rest') := acceptAll ok rest in (String c tok, rest')
      else (EmptyString, s)
  end.

(** [scanNumber(digits, false)]: at least one accepted byte is needed. *)
Definition scanNumber (s : string) : option (string * string) :=
  match acceptAll decimalDigits s with
  | (EmptyString, _) => None
  | (tok, rest) => Some (tok, rest)
  end.

(** [scanInt('d', bitSize)]: the value and the rest of the input. *)
Definition scanInt (bitSize : Z) (s : string) : option (Z * string) :=
  match SkipSpace s with
  | None | Some EmptyString => None
  | Some (String c rest as s1) =>
      let '(sg, s2) :=
        if indexByte sign c then (String c EmptyString, rest)
        else (EmptyString, s1) in
      match scanNumber s2 with
      | None => None
      | Some (tok, s3) =>
          match strconv.ParseInt (sg ++ tok) with
          | None => None
          | Some i =>
              if ((- 2 ^ (bitSize - 1) <=? i) && (i <? 2 ^ (bitSize - 1)))%Z
              then Some (i, s3) else None
          end
      end
  end.

(** [scanUint('d', bitSize)] *)
Definition scanUint (bitSize : Z) (s : string) : option (Z * string) :=
  match SkipSpace s with
  | None | Some EmptyString => None
  | Some s1 =>
      match scanNumber s1 with
      | None => None
      | Some (tok, s2) =>
          match strconv.ParseUint tok with
          | None => None
          | Some i => if (i <? 2 ^ bitSize)%Z then Some (i, s2) else None
          end
      end
  end.

(** The operands the core passes to [Sscanf]. *)
Inductive operand : Type :=
| IntPtr
| Uint32Ptr
| Uint8Ptr.

Definition scanOne (op : operand) (s : string) : option (Z * string) :=
  match op with
  | IntPtr => scanInt 64 s
  | Uint32Ptr => scanUint 32 s
  | Uint8Ptr => scanUint 8 s
  end.

(** [Sscanf(str, format, a...)] for a format made of [%d] verbs and of
    other bytes that are neither spaces nor percent signs: such a byte has
    to be the next byte of the input, a verb stores a number into the next
    operand, and what is left of the input after the format is ignored.
    The result lists the numbers stored; [None] is an error. *)
Fixpoint Sscanf (str format : string) (a : list operand) : option (list Z) :=
  match format with
  | EmptyString =>
      match a with
      | [] => Some []
      | _ :: _ => None
      end
  | String "%"%char (String "d"%char format') =>
      match a with
      | [] => None
      | op :: a' =>
          match scanOne op str with
          | None => None
          | Some (v, str') => option_map (cons v) (Sscanf str' format' a')
          end
      end
  | String c format' =>
      match str with
      | EmptyString => None
      | String c' str' =>
          if Ascii.eqb c c' then Sscanf str' format' a else None
      end
  end.

End fmt.

(** ** package crypto/subtle *)
Module subtle.

Fixpoint bytes_eqb (x y : list byte) : bool :=
  match x, y with
  | [], [] => true
  | a :: x', b :: y' => Byte.eqb a b && bytes_eqb x' y'
  | _, _ => false
  end.

(** [ConstantTimeCompare]: 1 when the slices have the same length and the
    same contents, 0 otherwise (the timing is not modelled). *)
Definition ConstantTimeCompare (x y : list byte) : Z :=
  if bytes_eqb x y then 1%Z else 0%Z.

End subtle.

(** ** package golang.org/x/crypto/argon2 *)
Module argon2.
Import Go.

Definition Version : Z := 19.

(** The Argon2id digest is computed by the library and not by the code
    verified here: it is an interface, a function of the password, the
    salt, the time cost, the memory cost, the parallelism and the length
    asked for. *)
Class Digest : Type :=
  deriveKey : list byte -> list byte -> Z -> Z -> Z -> Z -> list byte.

(** [IDKey] panics on a time cost or a parallelism below 1.  Asked for a
    key of no byte, it panics when the key is extracted: [blake2b.New(0,
    nil)] gives a nil digest, which [blake2bHash] writes to. *)
Definition IDKey `{Digest} (password salt : list byte)
    (time memory threads keyLen : Z) : outcome (list byte) :=
  if (time <? 1)%Z then Panic "argon2: number of rounds too small"
  else if (threads <? 1)%Z then Panic "argon2: parallelism degree too low"
  else if (keyLen =? 0)%Z
  then Panic "runtime error: invalid memory address or nil pointer dereference"
  else Return (deriveKey password salt time memory threads keyLen).

End argon2.

(** ** package crypto/rand *)
Module rand.
Import gofman.

(** The state of the system's generator: the bytes it delivers next. *)
Definition Reader := list byte.

(** [rand.Read(b)] for a slice of [n] bytes: the slice filled, the error
    and the generator afterwards.  A generator that cannot deliver fails. *)
Definition Read (r : Reader) (n : nat)
  : (list byte * option error) * Reader :=
  if Nat.leb n (List.length r)
  then ((firstn n r, None), skipn n r)
  else ((repeat x00 n, Some (LibError "crypto/rand")), r).

End rand.

(** ** package auth *)
Module auth.
Import Go gofman.

Definition ArgonTime : Z := 1.
Definition ArgonMemory : Z := 64 * 1024.
Definition ArgonThreads : Z := 4.
Definition ArgonKeyLen : Z := 32.

Record ArgonSettings := mkArgonSettings {
  Version : Z;
  Time : Z;
  Memory : Z;
  Threads : Z;
  KeyLen : Z
}.

(** [make([]byte, n)] panics on a negative length. *)
Definition make (n : Z) : outcome (list byte) :=
  if (n <? 0)%Z then Panic "makeslice: len out of range"
  else Return (repeat x00 (Z.to_nat n)).

(** Results are Go's pairs: the value (the nil slice is [[]], the zero
    string is empty) and the error ([None] for nil). *)
Definition GenerateRandomBytes (r : rand.Reader) (n : Z)
  : outcome ((list byte * option error) * rand.Reader) :=
  if (n <? -1)%Z
  then Return (([], Some (NewError EINTERNAL "Length must be a positive int.")), r)
  else
    b <- make n ;;;
    let '((b', err), r') := rand.Read r (List.length b) in
    match err with
    | Some e => Return (([], Some e), r')
    | None => Return ((b', None), r')
    end.

Definition EncodeToBase64String (b : list byte) : string :=
  base64.EncodeToString b.

Definition DecodeBase64String (s : string) : list byte * option error :=
  base64.DecodeString s.

Definition newEncoded (r : rand.Reader) (n : Z)
  : outcome ((string * option error) * rand.Reader) :=
  res <- GenerateRandomBytes r n ;;;
  let '((b, err), r') := res in
  match err with
  | Some e => Return ((EmptyString, Some e), r')
  | None => Return ((EncodeToBase64String b, None), r')
  end.

Definition NewToken (r : rand.Reader) := newEncoded r 32.
Definition NewPassword (r : rand.Reader) := newEncoded r 8.
Definition NewSalt (r : rand.Reader) := newEncoded r 16.

(** [fmt.Sprintf("$argon2id$v=%d$m=%d,t=%d,p=%d$%s$%s", ...)] *)
Definition formatKey (version memory time threads : Z)
    (b64Salt b64Hash : string) : string :=
  "$argon2id$v=" ++ fmt.formatInt version
    ++ "$m=" ++ fmt.formatInt memory
    ++ ",t=" ++ fmt.formatInt time
    ++ ",p=" ++ fmt.formatInt threads
    ++ "$" ++ b64Salt ++ "$" ++ b64Hash.

Definition HashPassword `{argon2.Digest} (password salt : string)
  : outcome (string * option error) :=
  if String.eqb password EmptyString
  then Return (EmptyString, Some (NewError EINVALID "Password required."))
  else if String.eqb salt EmptyString
  then Return (EmptyString, Some (NewError EINVALID "Salt required."))
  else
    hash <- argon2.IDKey (list_byte_of_string password)
              (list_byte_of_string salt)
              ArgonTime ArgonMemory ArgonThreads ArgonKeyLen ;;;
    let b64Salt := EncodeToBase64String (list_byte_of_string salt) in
    let b64Hash := EncodeToBase64String hash in
    Return (formatKey argon2.Version ArgonMemory ArgonTime ArgonThreads
              b64Salt b64Hash, None).

(** The result is the error returned, [None] for nil. *)
Definition VerifyPassword `{argon2.Digest} (password key : string)
  : outcome (option error) :=
  if String.eqb password EmptyString
  then Return (Some (NewError EINVALID "Password required."))
  else if String.eqb key EmptyString
  then Return (Some (NewError EINVALID "Argon2 key required."))
  else
    let decodedKey := strings.Split key "$"%char in
    if negb (Nat.eqb (List.length decodedKey) 6)
    then Return (Some (NewError EINVALID "Decoded key wrong length."))
    else
      match fmt.Sscanf (nth 2 decodedKey EmptyString) "v=%d" [fmt.IntPtr] with
      | Some [version] =>
          if negb (version =? argon2.Version)%Z
          then Return (Some (NewError EINVALID "Argon version mismatch."))
          else
            match fmt.Sscanf (nth 3 decodedKey EmptyString) "m=%d,t=%d,p=%d"
                    [fmt.Uint32Ptr; fmt.Uint32Ptr; fmt.Uint8Ptr] with
            | Some [memory; time; threads] =>
                match DecodeBase64String (nth 4 decodedKey EmptyString) with
                | (_, Some err) => Return (Some err)
                | (salt, None) =>
                    match DecodeBase64String (nth 5 decodedKey EmptyString) with
                    | (_, Some err) => Return (Some err)
                    | (hash, None) =>
                        let p := mkArgonSettings version time memory threads
                                   (Z.of_nat (List.length hash) mod 2 ^ 32) in
                        control <- argon2.IDKey (list_byte_of_string password)
                                     salt (Time p) (Memory p) (Threads p)
                                     (KeyLen p) ;;;
                        if (subtle.ConstantTimeCompare hash control =? 1)%Z
                        then Return None
                        else Return (Some (NewError EINVALID
                                             "Hash not equal password."))
                    end
                end
            | _ => Return (Some (LibError "fmt"))
            end
      | _ => Return (Some (LibError "fmt"))
      end.

End auth.

(** ** package http: the two middlewares of auth.go *)
Module http.
Import Go gofman.

(** A request as far as the middlewares read it: its cookies, in the
    order of the header, and its context. *)
Record Request := mkRequest {
  Cookies : list (string * string);
  Ctx : Context
}.

Definition WithContext (r : Request) (ctx : Context) : Request :=
  mkRequest (Cookies r) ctx.

(** [r.Cookie(name)]: the value of the first cookie of that name, [None]
    for [ErrNoCookie]. *)
Fixpoint lookupCookie (cs : list (string * string)) (name : string)
  : option string :=
  match cs with
  | [] => None
  | (n, v) :: rest => if String.eqb n name then Some v else lookupCookie rest name
  end.

Definition Cookie (r : Request) (name : string) : option string :=
  lookupCookie (Cookies r) name.

(** The collaborators: Go's pairs of a pointer and an error. *)
Class SessionService : Type :=
  FindSessionForToken : Context -> string -> string -> option Session * option error.

Class UserService : Type :=
  FindUserByID : Context -> string -> option User * option error.

(** A handler turns the response written so far and the request into the
    response afterwards; [Redirect] is [http.Redirect]. *)
Class ResponseWriter (W : Type) : Type :=
  Redirect : W -> Request -> string -> Z -> W.

Definition StatusFound : Z := 302.

Section Middleware.
Context {W : Type} `{ResponseWriter W} `{SessionService} `{UserService}.

Definition Handler := W -> Request -> W.

Definition authenticate (next : Handler) : Handler :=
  fun w r =>
    match Cookie r "Session" with
    | None => next w r
    | Some sessionid =>
        match Cookie r "Token" with
        | None => next w r
        | Some token =>
            match FindSessionForToken (Ctx r) sessionid token with
            | (Some session, None) =>
                match FindUserByID (Ctx r) (Session_UserID session) with
                | (Some user, None) =>
                    let r1 := WithContext r
                                (NewContextWithSession (Ctx r) (Some session)) in
                    let r2 := WithContext r1
                                (NewContextWithUser (Ctx r1) (Some user)) in
                    next w r2
                | _ => next w r
                end
            | _ => next w r
            end
        end
    end.

Definition requireAuth (next : Handler) : Handler :=
  fun w r =>
    let userid := UserIDFromContext (Ctx r) in
    if String.eqb userid EmptyString then Redirect w r "/login" StatusFound
    else
      match SessionFromContext (Ctx r) with
      | None => Redirect w r "/login" StatusFound
      | Some session =>
          if String.eqb (Session_ID session) EmptyString
          then Redirect w r "/login" StatusFound
          else next w r
      end.

End Middleware.

End http.

(** ** package fmt: [Sprintf] with integer operands *)
Module fmtPrint.

Fixpoint extraOperands (a : list Z) : string :=
  match a with
  | [] => EmptyString
  | [x] => "int=" ++ fmt.formatInt x
  | x :: rest => "int=" ++ fmt.formatInt x ++ ", " ++ extraOperands rest
  end.

(** [Sprintf(format, a...)] for operands of type [int] and a format whose
    verbs are all [%d]: a verb prints the next operand, or
    ["%!d(MISSING)"] when none is left, and operands left over are listed
    after the text. *)
Fixpoint Sprintf (format : string) (a : list Z) : string :=
  match format with
  | EmptyString =>
      match a with
      | [] => EmptyString
      | _ :: _ => "%!(EXTRA " ++ extraOperands a ++ ")"
      end
  | String "%"%char (String "d"%char format') =>
      match a with
      | [] => "%!d(MISSING)" ++ Sprintf format' []
      | x :: a' => fmt.formatInt x ++ Sprintf format' a'
      end
  | String c format' => String c (Sprintf format' a)
  end.

End fmtPrint.

(** ** package gofman: the [Validate] methods *)
Module validate.
Import Go gofman.

Definition MaxUsernameLen : Z := 35.
Definition MinPasswordLen : Z := 7.
Definition MinTokenLen : Z := 32.
Definition MaxTagNameLen : Z := 255.
Definition MaxActorNameLen : Z := 255.

(** [len(s)]: the number of bytes. *)
Definition len (s : string) : Z := Z.of_nat (String.length s).

(** [NewError(code, format, args...)] with integer arguments. *)
Definition NewErrorf (code format : string) (args : list Z) : error :=
  Error code (fmtPrint.Sprintf format args).

(** The receivers are pointers: [None] is the nil receiver. *)
Definition User_Validate (user : option User) : outcome (option error) :=
  u <- deref user ;;;
  if String.eqb (User_Username u) EmptyString
  then Return (Some (NewError EINVALID "Username required."))
  else if (MaxUsernameLen <? len (User_Username u))%Z
  then Return (Some (NewErrorf EINVALID
                       "Username must be less than %d characters."
                       [MaxUsernameLen]))
  else if String.eqb (User_Password u) EmptyString
  then Return (Some (NewError EINVALID "Password required."))
  else if (len (User_Password u) <? MinPasswordLen)%Z
  then Return (Some (NewErrorf EINVALID
                       "Password must have at least %d characters."
                       [MinPasswordLen]))
  else Return None.

Definition Session_Validate (session : option Session)
  : outcome (option error) :=
  s <- deref session ;;;
  if String.eqb (Session_UserID s) EmptyString
  then Return (Some (NewError EINVALID "User ID required."))
  else if String.eqb (Session_Token s) EmptyString
  then Return (Some (NewError EINVALID "Access token required."))
  else if (len (Session_Token s) <? MinTokenLen)%Z
  then Return (Some (NewErrorf EINVALID
                       "Token must have at least %d characters."
                       [MinTokenLen]))
  else Return None.

Definition File_Validate (file : option File) : outcome (option error) :=
  b <- deref file ;;;
  if String.eqb (File_UserID b) EmptyString
  then Return (Some (NewError EINVALID "User ID required."))
  else if String.eqb (File_Name b) EmptyString
  then Return (Some (NewError EINVALID "Name required."))
  else if String.eqb (File_Type b) EmptyString
  then Return (Some (NewError EINVALID "Type required."))
  else if String.eqb (File_Path b) EmptyString
  then Return (Some (NewError EINVALID "Path required."))
  else if String.eqb (File_Checksum b) EmptyString
  then Return (Some (NewError EINVALID "Checksum required."))
  else Return None.

Definition Tag_Validate (tag : option Tag) : outcome (option error) :=
  t <- deref tag ;;;
  if String.eqb (Tag_UserID t) EmptyString
  then Return (Some (NewError EINVALID "User ID required."))
  else if String.eqb (Tag_Name t) EmptyString
  then Return (Some (NewError EINVALID "Name required."))
  else if (MaxTagNameLen <? len (Tag_Name t))%Z
  then Return (Some (NewErrorf EINVALID
                       "Name must be less than %d characters."
                       [MaxTagNameLen]))
  else Return None.

Definition Actor_Validate (actor : option Actor) : outcome (option error) :=
  t <- deref actor ;;;
  if String.eqb (Actor_UserID t) EmptyString
  then Return (Some (NewError EINVALID "User ID required."))
  else if String.eqb (Actor_Name t) EmptyString
  then Return (Some (NewError EINVALID "Name required."))
  else if (MaxActorNameLen <? len (Actor_Name t))%Z
  then Return (Some (NewErrorf EINVALID
                       "Name must be less than %d characters."
                       [MaxActorNameLen]))
  else Return None.

End validate.

(** ** package gofman: the service interface and the records of the store *)
Module services.
Import Go gofman.

(** The interface [AuthService]; the methods that draw random bytes take
    the generator and return it. *)
Class AuthService : Type := mkAuthService {
  NewToken : rand.Reader -> outcome ((string * option error) * rand.Reader);
  NewPassword : rand.Reader -> outcome ((string * option error) * rand.Reader);
  NewSalt : rand.Reader -> outcome ((string * option error) * rand.Reader);
  HashPassword : string -> string -> outcome (string * option error);
  VerifyPassword : string -> string -> outcome (option error)
}.

(** [auth.AuthService], the implementation of package auth. *)
Definition authService `{argon2.Digest} : AuthService :=
  mkAuthService auth.NewToken auth.NewPassword auth.NewSalt
    auth.HashPassword auth.VerifyPassword.

Record SessionFilter := mkSessionFilter {
  SessionFilter_ID : ptr;
  SessionFilter_UserID : ptr;
  SessionFilter_Token : ptr;
  SessionFilter_Offset : Z;
  SessionFilter_Limit : Z
}.

Record TagUpdate := mkTagUpdate {
  TagUpdate_Name : ptr
}.

End services.

(** ** package strings: [Join] *)
Module stringsJoin.

Fixpoint Join (elems : list string) (sep : string) : string :=
  match elems with
  | [] => EmptyString
  | [e] => e
  | e :: rest => e ++ sep ++ Join rest sep
  end.

End stringsJoin.

(** ** package sqlite: sessions, users and tags *)
Module sqlite.
Import Go gofman validate services.

(** The text of the statements is written line by line: [lines] puts a
    line feed between two lines and [indent] tabs before one. *)
Definition nl : string := String "010"%char EmptyString.
Definition tab : string := String "009"%char EmptyString.
Definition star : string := String "042"%char EmptyString.

Fixpoint indent (k : nat) (s : string) : string :=
  match k with
  | O => s
  | S k' => tab ++ indent k' s
  end.

Definition lines (l : list string) : string := stringsJoin.Join l nl.

(** The arguments bound to the placeholders of a statement. *)
Inductive arg : Type :=
| Text (s : string)
| Integer (z : Z).

Record statement := mkStatement {
  statement_sql : string;
  statement_args : list arg
}.

(** What the loop over the rows of a query meets: a row whose columns
    [Scan] stores, or a row on which [Scan] fails; after the last row,
    [rows.Err()]. *)
Inductive scanned (C : Type) : Type :=
| Scanned (columns : C)
| ScanError (err : error).
Arguments Scanned {C} columns.
Arguments ScanError {C} err.

Record Rows (C : Type) := mkRows {
  Rows_items : list (scanned C);
  Rows_Err : option error
}.
Arguments mkRows {C} _ _.
Arguments Rows_items {C} _.
Arguments Rows_Err {C} _.

(** The columns the three queries select, the window count last. *)
Record sessionColumns := mkSessionColumns {
  sc_id : string;
  sc_users_id : string;
  sc_token : string;
  sc_created_at : Z;
  sc_count : Z
}.

Record userColumns := mkUserColumns {
  uc_id : string;
  uc_username : string;
  uc_password : string;
  uc_is_admin : bool;
  uc_created_at : Z;
  uc_updated_at : Z;
  uc_removed_at : Z;
  uc_count : Z
}.

Record tagColumns := mkTagColumns {
  tc_id : string;
  tc_users_id : string;
  tc_name : string;
  tc_created_at : Z;
  tc_updated_at : Z;
  tc_removed_at : Z;
  tc_count : Z
}.

(** The types [DB] and [Tx] of the package and its function
    [formatLimitOffset] are not in the files at hand; they are taken as
    given.  A transaction answers a query with an error or with rows, the
    query being typed by the columns its loop scans, and an executed
    statement with an error or none. *)
Class Tx : Type := mkTx {
  now : Z;
  ID : string * option error;
  AuthServiceOf : option AuthService;
  formatLimitOffset : Z -> Z -> string;
  QuerySessions : Context -> statement -> Rows sessionColumns * option error;
  QueryUsers : Context -> statement -> Rows userColumns * option error;
  QueryTags : Context -> statement -> Rows tagColumns * option error;
  ExecContext : Context -> statement -> option error
}.

Class DB : Type :=
  BeginTx : Context -> Tx + error.

(** The loop [for rows.Next() { ... rows.Scan(...) ... }]: every row
    scanned gives a record and the count; a failing [Scan] ends the
    function with its error. *)
Fixpoint collect {C A : Type} (make : C -> A) (count : C -> Z)
    (items : list (scanned C)) (acc : list A) (n : Z) : (list A * Z) + error :=
  match items with
  | [] => inl (acc, n)
  | Scanned c :: rest => collect make count rest (acc ++ [make c])%list (count c)
  | ScanError e :: _ => inr e
  end.

(** What a find function returns for the answer of its query. *)
Definition found {C A : Type} (make : C -> A) (count : C -> Z)
    (answer : Rows C * option error) : list A * Z * option error :=
  match answer with
  | (_, Some err) => ([], 0%Z, Some err)
  | (rows, None) =>
      match collect make count (Rows_items rows) [] 0%Z with
      | inr err => ([], 0%Z, Some err)
      | inl (records, n) =>
          match Rows_Err rows with
          | Some err => ([], 0%Z, Some err)
          | None => (records, n, None)
          end
      end
  end.

(** [if v := p; v != nil { where, args = append(where, cond),
    append(args, *v) }] *)
Definition condition (h : store) (p : ptr) (cond : string)
    (wa : list string * list arg) : outcome (list string * list arg) :=
  match p with
  | None => Return wa
  | Some _ =>
      v <- load h p ;;;
      Return ((fst wa ++ [cond])%list, (snd wa ++ [Text v])%list)
  end.

Definition orderBy : string :=
  lines [EmptyString; indent 2 "ORDER BY created_at ASC"; indent 2 EmptyString].

Section Transaction.
Context `{Tx}.

(** *** session.go *)
Definition selectSessions : string :=
  lines [EmptyString; indent 2 "SELECT"; indent 3 "id,"; indent 3 "users_id,";
         indent 3 "token,"; indent 3 "created_at,";
         indent 3 ("COUNT(" ++ star ++ ") OVER()");
         indent 2 "FROM sessions"; indent 2 "WHERE "].

Definition sessionOf (c : sessionColumns) : Session :=
  mkSession (sc_id c) (sc_users_id c) (sc_token c) (sc_created_at c).

Definition findSessions (h : store) (ctx : Context) (filter : SessionFilter)
  : outcome (list Session * Z * option error) :=
  wa <- condition h (SessionFilter_ID filter) "id = ?" (["1 = 1"], []) ;;;
  wa <- condition h (SessionFilter_UserID filter) "users_id = ?" wa ;;;
  wa <- condition h (SessionFilter_Token filter) "token = ?" wa ;;;
  let query :=
    selectSessions ++ stringsJoin.Join (fst wa) " AND " ++ orderBy
      ++ formatLimitOffset (SessionFilter_Limit filter)
           (SessionFilter_Offset filter) in
  Return (found sessionOf sc_count
            (QuerySessions ctx (mkStatement query (snd wa)))).

Definition firstSession (res : list Session * Z * option error)
  : option Session * option error :=
  match res with
  | (_, _, Some err) => (None, Some err)
  | ([], _, None) => (None, Some (NewError ENOTFOUND "Session not found."))
  | (session :: _, _, None) => (Some session, None)
  end.

Definition findSessionByID (h : store) (ctx : Context) (id : string)
  : outcome (option Session * option error) :=
  let '(h1, p) := alloc h id in
  res <- findSessions h1 ctx (mkSessionFilter (Some p) None None 0 1) ;;;
  Return (firstSession res).

Definition findSessionForToken (h : store) (ctx : Context) (id token : string)
  : outcome (option Session * option error) :=
  let '(h1, p) := alloc h id in
  let '(h2, q) := alloc h1 token in
  res <- findSessions h2 ctx (mkSessionFilter (Some p) None (Some q) 0 1) ;;;
  Return (firstSession res).

Definition insertSession : string :=
  lines [EmptyString; indent 2 "INSERT INTO sessions ("; indent 3 "id,";
         indent 3 "users_id,"; indent 3 "token,"; indent 3 "created_at";
         indent 2 ")"; indent 2 "VALUES (?, ?, ?, ?)"; indent 1 EmptyString].

(** The functions that write return, with the error, the session or tag
    as the call leaves it and the statements they had executed, in order. *)
Definition createSession (ctx : Context) (session : option Session)
  : outcome ((option Session * option error) * list statement) :=
  invalid <- Session_Validate session ;;;
  match invalid with
  | Some err => Return ((session, Some err), [])
  | None =>
      match ID with
      | (_, Some err) => Return ((session, Some err), [])
      | (id, None) =>
          s <- deref session ;;;
          let s1 := mkSession id (Session_UserID s) (Session_Token s)
                      (Session_CreatedAt s) in
          let s2 := mkSession (Session_ID s1) (Session_UserID s1)
                      (Session_Token s1) now in
          let st := mkStatement insertSession
                      [Text (Session_ID s2); Text (Session_UserID s2);
                       Text (Session_Token s2); Integer (Session_CreatedAt s2)] in
          Return ((Some s2, ExecContext ctx st), [st])
      end
  end.

Definition deleteSession (h : store) (ctx : Context) (id : string)
  : outcome (option error * list statement) :=
  res <- findSessionByID h ctx id ;;;
  match res with
  | (_, Some err) => Return (Some err, [])
  | (session, None) =>
      can <- CanDeleteSession ctx session ;;;
      if negb can
      then Return (Some (NewError EUNAUTHORIZED
                           "You are not allowed to delete this session."), [])
      else
        let st := mkStatement "DELETE FROM sessions WHERE id = ?" [Text id] in
        Return (ExecContext ctx st, [st])
  end.

(** *** user.go *)
Definition selectUsers : string :=
  lines [EmptyString; indent 2 "SELECT"; indent 3 "id,"; indent 3 "username,";
         indent 3 "password,"; indent 3 "is_admin,"; indent 3 "created_at,";
         indent 3 "updated_at,"; indent 3 "removed_at,";
         indent 3 ("COUNT(" ++ star ++ ") OVER()");
         indent 2 "FROM users"; indent 2 "WHERE "].

(** [Scan] fills a zero [User]: the demo flag is no column. *)
Definition userOf (c : userColumns) : User :=
  mkUser (uc_id c) (uc_username c) (uc_password c) (uc_is_admin c) false
    (uc_created_at c) (uc_updated_at c) (uc_removed_at c).

Definition findUsers (h : store) (ctx : Context) (filter : UserFilter)
  : outcome (list User * Z * option error) :=
  if negb (CanFindUser h ctx filter)
  then Return ([], 0%Z,
               Some (NewError EUNAUTHORIZED
                       "You are not allowed to search using this filter."))
  else
    wa <- condition h (UserFilter_ID filter) "id = ?" (["1 = 1"], []) ;;;
    wa <- condition h (UserFilter_Username filter) "username = ?" wa ;;;
    let conds := (fst wa ++ ["removed_at = 0"])%list in
    let query :=
      selectUsers ++ stringsJoin.Join conds " AND " ++ orderBy
        ++ formatLimitOffset (UserFilter_Limit filter)
             (UserFilter_Offset filter) in
    Return (found userOf uc_count
              (QueryUsers ctx (mkStatement query (snd wa)))).

Definition firstUser (res : list User * Z * option error)
  : option User * option error :=
  match res with
  | (_, _, Some err) => (None, Some err)
  | ([], _, None) => (None, Some (NewError ENOTFOUND "User not found."))
  | (user :: _, _, None) => (Some user, None)
  end.

Definition findUserByID (h : store) (ctx : Context) (id : string)
  : outcome (option User * option error) :=
  let '(h1, p) := alloc h id in
  res <- findUsers h1 ctx (mkUserFilter (Some p) None 0 1) ;;;
  Return (firstUser res).

Definition findUserByUsername (h : store) (ctx : Context) (username : string)
  : outcome (option User * option error) :=
  let '(h1, p) := alloc h username in
  res <- findUsers h1 ctx (mkUserFilter None (Some p) 0 1) ;;;
  Return (firstUser res).

(** [hashPassword]; the generator of the service is threaded through. *)
Definition hashPassword (r : rand.Reader) (password : string)
  : outcome ((string * option error) * rand.Reader) :=
  match AuthServiceOf with
  | None =>
      Return ((EmptyString, Some (NewError EINVALID "AuthService required.")), r)
  | Some svc =>
      res <- @NewSalt svc r ;;;
      let '((salt, err), r1) := res in
      match err with
      | Some e => Return ((EmptyString, Some e), r1)
      | None =>
          res2 <- @HashPassword svc password salt ;;;
          let '(hash, err2) := res2 in
          match err2 with
          | Some e => Return ((EmptyString, Some e), r1)
          | None => Return ((hash, None), r1)
          end
      end
  end.

(** *** tag.go *)
Definition selectTags : string :=
  lines [EmptyString; indent 2 "SELECT"; indent 3 "id,"; indent 3 "users_id,";
         indent 3 "name,"; indent 3 "created_at,"; indent 3 "updated_at,";
         indent 3 "removed_at,"; indent 3 ("COUNT(" ++ star ++ ") OVER()");
         indent 2 "FROM tags"; indent 2 "WHERE "].

Definition tagOf (c : tagColumns) : Tag :=
  mkTag (tc_id c) (tc_users_id c) (tc_name c) (tc_created_at c)
    (tc_updated_at c) (tc_removed_at c).

Definition findTags (h : store) (ctx : Context) (filter : TagFilter)
  : outcome (list Tag * Z * option error) :=
  if negb (CanFindTag h ctx filter)
  then Return ([], 0%Z,
               Some (NewError EUNAUTHORIZED
                       "You are not allowed to search using this filter."))
  else
    wa <- condition h (TagFilter_ID filter) "id = ?" (["1 = 1"], []) ;;;
    wa <- condition h (TagFilter_UserID filter) "users_id = ?" wa ;;;
    let conds := (fst wa ++ ["removed_at = 0"])%list in
    let query :=
      selectTags ++ stringsJoin.Join conds " AND " ++ orderBy
        ++ formatLimitOffset (TagFilter_Limit filter)
             (TagFilter_Offset filter) in
    Return (found tagOf tc_count
              (QueryTags ctx (mkStatement query (snd wa)))).

Definition firstTag (res : list Tag * Z * option error)
  : option Tag * option error :=
  match res with
  | (_, _, Some err) => (None, Some err)
  | ([], _, None) => (None, Some (NewError ENOTFOUND "Tag not found."))
  | (tag :: _, _, None) => (Some tag, None)
  end.

Definition findTagByID (h : store) (ctx : Context) (id : string)
  : outcome (option Tag * option error) :=
  let '(h1, p) := alloc h id in
  res <- findTags h1 ctx (mkTagFilter (Some p) None 0 1) ;;;
  Return (firstTag res).

Definition insertTag : string :=
  lines [EmptyString; indent 2 "INSERT INTO tags ("; indent 3 "id,";
         indent 3 "users_id,"; indent 3 "name,"; indent 3 "created_at,";
         indent 3 "updated_at,"; indent 3 "removed_at"; indent 2 ")";
         indent 2 "VALUES (?, ?, ?, ?, ?, ?)"; indent 1 EmptyString].

Definition createTag (ctx : Context) (tag : option Tag)
  : outcome ((option Tag * option error) * list statement) :=
  invalid <- Tag_Validate tag ;;;
  match invalid with
  | Some err => Return ((tag, Some err), [])
  | None =>
      can <- CanUpdateTag ctx tag ;;;
      if negb can
      then Return ((tag, Some (NewError EUNAUTHORIZED
                                 "You are not allowed to create this tag.")), [])
      else
        match ID with
        | (_, Some err) => Return ((tag, Some err), [])
        | (id, None) =>
            t <- deref tag ;;;
            let t1 := mkTag id (Tag_UserID t) (Tag_Name t) now now
                        (Tag_RemovedAt t) in
            let st := mkStatement insertTag
                        [Text (Tag_ID t1); Text (Tag_UserID t1);
                         Text (Tag_Name t1); Integer (Tag_CreatedAt t1);
                         Integer (Tag_UpdatedAt t1); Integer 0] in
            Return ((Some t1, ExecContext ctx st), [st])
        end
  end.

Definition updateTagSQL : string :=
  lines [EmptyString; indent 2 "UPDATE tags"; indent 2 "SET name = ?,";
         indent 2 "WHERE id = ?"; indent 1 EmptyString].

Definition updateTag (h : store) (ctx : Context) (id : string)
    (update : TagUpdate)
  : outcome ((option Tag * option error) * list statement) :=
  res <- findTagByID h ctx id ;;;
  match res with
  | (tag, Some err) => Return ((tag, Some err), [])
  | (tag, None) =>
      can <- CanUpdateTag ctx tag ;;;
      if negb can
      then Return ((None, Some (NewError EUNAUTHORIZED
                                  "You are not allowed to update this tag.")), [])
      else
        t <- deref tag ;;;
        t1 <- match TagUpdate_Name update with
              | None => Return t
              | Some _ =>
                  v <- load h (TagUpdate_Name update) ;;;
                  Return (mkTag (Tag_ID t) (Tag_UserID t) v (Tag_CreatedAt t)
                            (Tag_UpdatedAt t) (Tag_RemovedAt t))
              end ;;;
        invalid <- Tag_Validate (Some t1) ;;;
        match invalid with
        | Some err => Return ((Some t1, Some err), [])
        | None =>
            let st := mkStatement updateTagSQL [Text (Tag_Name t1); Text id] in
            Return ((Some t1, ExecContext ctx st), [st])
        end
  end.

Definition removeTagSQL : string :=
  lines [EmptyString; indent 2 "UPDATE tags"; indent 2 "SET removed_at = ?";
         indent 2 "WHERE id = ?"; indent 1 EmptyString].

Definition removeTag (h : store) (ctx : Context) (id : string)
  : outcome (option error * list statement) :=
  res <- findTagByID h ctx id ;;;
  match res with
  | (_, Some err) => Return (Some err, [])
  | (tag, None) =>
      can <- CanUpdateTag ctx tag ;;;
      if negb can
      then Return (Some (NewError EUNAUTHORIZED
                           "You are not allowed to remove this tag."), [])
      else
        let st := mkStatement removeTagSQL [Integer now; Text id] in
        Return (ExecContext ctx st, [st])
  end.

End Transaction.

(** *** The services: a transaction is begun around the function *)
Definition UserService_FindUserByID `{DB} (h : store) (ctx : Context)
    (id : string) : outcome (option User * option error) :=
  match BeginTx ctx with
  | inr err => Return (None, Some err)
  | inl tx =>
      res <- @findUserByID tx h ctx id ;;;
      match res with
      | (_, Some err) => Return (None, Some err)
      | (user, None) => Return (user, None)
      end
  end.

Definition SessionService_FindSessionForToken `{DB} (h : store)
    (ctx : Context) (id token : string)
  : outcome (option Session * option error) :=
  match BeginTx ctx with
  | inr err => Return (None, Some err)
  | inl tx =>
      res <- @findSessionForToken tx h ctx id token ;;;
      match res with
      | (_, Some err) => Return (None, Some err)
      | (session, None) => Return (session, None)
      end
  end.

(** *** setup.go *)
Definition SetupService_ShouldRunSetup `{DB} (h : store) (ctx : Context)
  : outcome (bool * option error) :=
  match BeginTx ctx with
  | inr err => Return (false, Some err)
  | inl tx =>
      res <- @findUsers tx h ctx (mkUserFilter None None 0 1) ;;;
      match res with
      | (_, _, Some err) => Return (false, Some err)
      | (users, _, None) => Return (Nat.ltb 0 (List.length users), None)
      end
  end.

End sqlite.

(** ** package path_traversal: [Expand] *)
Module path_traversal.
Import Go gofman.

(** [strings.HasPrefix] and [strings.TrimPrefix] *)
Fixpoint HasPrefix (s prefix : string) : bool :=
  match prefix, s with
  | EmptyString, _ => true
  | String p prefix', String c s' => Ascii.eqb c p && HasPrefix s' prefix'
  | String _ _, EmptyString => false
  end.

Fixpoint dropBytes (n : nat) (s : string) : string :=
  match n, s with
  | O, _ => s
  | S n', String _ s' => dropBytes n' s'
  | S _, EmptyString => EmptyString
  end.

Definition TrimPrefix (s prefix : string) : string :=
  if HasPrefix s prefix then dropBytes (String.length prefix) s else s.

(** What the operating system and the library give: the path separator,
    the home directory of the current user or the error of
    [user.Current], and [filepath.Join]. *)
Class System : Type := mkSystem {
  PathSeparator : ascii;
  Current : string * option error;
  Join : string -> string -> string
}.

Definition Expand `{System} (path : string) : string * option error :=
  let home := "~" ++ String PathSeparator EmptyString in
  if negb (String.eqb path "~") && negb (HasPrefix path home)
  then (path, None)
  else
    match Current with
    | (_, Some err) => (path, Some err)
    | (HomeDir, None) =>
        if String.eqb HomeDir EmptyString
        then (path, Some (NewError EINTERNAL "Home directory not set."))
        else if String.eqb path "~" then (HomeDir, None)
        else (Join HomeDir (TrimPrefix path home), None)
    end.

End path_traversal.

(** * Intended behaviour, auxiliary notions and test data *)

Module PolicyData.
Import Go gofman.

(** What the policy is meant to decide, for comparison with the code.
    The user predicate for update and remove: the acting user is the
    target and no demo user, or is an admin acting on another user. *)
Definition CanUpdateUser_policy (ctx : Context) (target : User) : bool :=
  match UserFromContext ctx with
  | None => false
  | Some u =>
      if String.eqb (User_ID u) (User_ID target) then negb (User_IsDemo u)
      else User_IsAdmin u
  end.

(** The find predicates: an acting user is present and the filter's owner
    constraint is set and holds that user's id. *)
Definition CanFind_policy (h : store) (ctx : Context) (owner : ptr) : bool :=
  match UserFromContext ctx, owner with
  | Some u, Some _ =>
      match load h owner with
      | Return s => String.eqb s (User_ID u)
      | Panic _ => false
      end
  | _, _ => false
  end.

(** Sample data. *)
Definition alice : User := mkUser "alice" "alice" "secret-a" false false 0 0 0.

Definition bob : User := mkUser "bob" "bob" "secret-b" false false 0 0 0.

Definition demo : User := mkUser "demo" "demo" "secret-d" false true 0 0 0.

Definition asUser (u : User) : Context := NewContextWithUser [] (Some u).

Definition filesOf (p : ptr) : FileFilter := mkFileFilter None p None 0 20.

Definition tagsOf (p : ptr) : TagFilter := mkTagFilter None p 0 20.

Definition actorsOf (p : ptr) : ActorFilter := mkActorFilter None p 0 20.

Definition demoFile : File :=
  mkFile "f1" "demo" "a.png" "image/png" "/media/a.png" "c0ffee" 0 0 0.

Definition demoTag : Tag := mkTag "t1" "demo" "holiday" 0 0 0.

Definition demoActor : Actor := mkActor "a1" "demo" "somebody" 0 0 0.

End PolicyData.

Module Resolution.
Import Go gofman http.

Section Lookups.
Context `{SessionService} `{UserService}.

(** The request resolves to a session and its user: both cookies are
    there and both lookups give a value and no error. *)
Inductive resolved (r : Request) (session : Session) (user : User) : Prop :=
| resolved_intro (sessionid token : string) :
    Cookie r "Session" = Some sessionid ->
    Cookie r "Token" = Some token ->
    FindSessionForToken (Ctx r) sessionid token = (Some session, None) ->
    FindUserByID (Ctx r) (Session_UserID session) = (Some user, None) ->
    resolved r session user.

(** A lookup that gives an error or a nil pointer. *)
Definition notFound {A : Type} (res : option A * option error) : Prop :=
  fst res = None \/ snd res <> None.

(** The request stays anonymous: a cookie is absent, or the session is
    not found, or its user is not found. *)
Inductive anonymous (r : Request) : Prop :=
| no_session_cookie :
    Cookie r "Session" = None -> anonymous r
| no_token_cookie :
    Cookie r "Token" = None -> anonymous r
| no_session (sessionid token : string) :
    Cookie r "Session" = Some sessionid ->
    Cookie r "Token" = Some token ->
    notFound (FindSessionForToken (Ctx r) sessionid token) ->
    anonymous r
| no_user (sessionid token : string) (session : Session) :
    Cookie r "Session" = Some sessionid ->
    Cookie r "Token" = Some token ->
    FindSessionForToken (Ctx r) sessionid token = (Some session, None) ->
    notFound (FindUserByID (Ctx r) (Session_UserID session)) ->
    anonymous r.

(** The request handed on after a successful resolution. *)
Definition identified (r : Request) (session : Session) (user : User)
  : Request :=
  WithContext r
    (NewContextWithUser (NewContextWithSession (Ctx r) (Some session))
       (Some user)).

End Lookups.

(** Test doubles: a response that records where the request ended, a
    session store with one session and a user store with one user. *)
Inductive trace : Type :=
| Served (user : option User) (session : option Session)
| Redirected (url : string) (code : Z).

#[export] Instance traceWriter : ResponseWriter (list trace) :=
  fun w _ url code => (w ++ [Redirected url code])%list.

Definition aliceSession : Session :=
  mkSession "s1" "alice" "0123456789abcdef0123456789abcdef" 0.

#[export] Instance oneSession : SessionService :=
  fun _ id token =>
    if String.eqb id (Session_ID aliceSession)
       && String.eqb token (Session_Token aliceSession)
    then (Some aliceSession, None)
    else (None, Some (NewError ENOTFOUND "Session not found.")).

#[export] Instance oneUser : UserService :=
  fun _ id =>
    if String.eqb id "alice" then (Some PolicyData.alice, None)
    else (None, Some (NewError ENOTFOUND "User not found.")).

Definition serve : Handler (W := list trace) :=
  fun w r =>
    (w ++ [Served (UserFromContext (Ctx r)) (SessionFromContext (Ctx r))])%list.

Definition noCookies : Request := mkRequest [] [].

Definition wrongToken : Request :=
  mkRequest [("Session", "s1"); ("Token", "guess")] [].

End Resolution.

Module Sextets.
Import base64.
Local Open Scope Z_scope.

(** The sextets that [EncodeToString] looks up, one per character. *)
Fixpoint sextetsOf (src : list byte) : list Z :=
  match src with
  | [] => []
  | [b0] =>
      let val := Z.shiftl (Z_of_byte b0) 16 in
      [Z.land (Z.shiftr val 18) 63; Z.land (Z.shiftr val 12) 63]
  | [b0; b1] =>
      let val := Z.lor (Z.shiftl (Z_of_byte b0) 16) (Z.shiftl (Z_of_byte b1) 8) in
      [Z.land (Z.shiftr val 18) 63; Z.land (Z.shiftr val 12) 63;
       Z.land (Z.shiftr val 6) 63]
  | b0 :: b1 :: b2 :: rest =>
      let val :=
        Z.lor (Z.lor (Z.shiftl (Z_of_byte b0) 16) (Z.shiftl (Z_of_byte b1) 8))
          (Z_of_byte b2) in
      Z.land (Z.shiftr val 18) 63 :: Z.land (Z.shiftr val 12) 63
        :: Z.land (Z.shiftr val 6) 63 :: Z.land val 63 :: sextetsOf rest
  end.

Definition sextet (v : Z) : Prop := 0 <= v < 64.

End Sextets.

Module Digits.
Import fmt.
Local Open Scope Z_scope.

(** The number a digit sequence denotes, read left to right from [acc]. *)
Fixpoint uintValue (d : Decimal.uint) (acc : Z) : Z :=
  match d with
  | Decimal.Nil => acc
  | Decimal.D0 l => uintValue l (acc * 10 + 0)
  | Decimal.D1 l => uintValue l (acc * 10 + 1)
  | Decimal.D2 l => uintValue l (acc * 10 + 2)
  | Decimal.D3 l => uintValue l (acc * 10 + 3)
  | Decimal.D4 l => uintValue l (acc * 10 + 4)
  | Decimal.D5 l => uintValue l (acc * 10 + 5)
  | Decimal.D6 l => uintValue l (acc * 10 + 6)
  | Decimal.D7 l => uintValue l (acc * 10 + 7)
  | Decimal.D8 l => uintValue l (acc * 10 + 8)
  | Decimal.D9 l => uintValue l (acc * 10 + 9)
  end.

(** The digits of a non-negative number. *)
Definition digitsOf (n : Z) : Decimal.uint :=
  match n with
  | Z.pos p => Pos.to_uint p
  | _ => Decimal.zero
  end.

(** The input after a number: empty, or a byte [scanNumber] refuses. *)
Definition stops (rest : string) : Prop :=
  match rest with
  | EmptyString => True
  | String c _ => indexByte decimalDigits c = false
  end.

End Digits.

Module TestVectors.
Import Go gofman auth.
Local Open Scope Z_scope.

(** The fourth piece of a key. *)
Definition parameters (memory time threads : Z) : string :=
  "m=" ++ fmt.formatInt memory ++ ",t=" ++ fmt.formatInt time
    ++ ",p=" ++ fmt.formatInt threads.

(** The digest of the test vector of auth_test.go: password "password",
    salt "salt", the default costs and 32 bytes. *)
Definition testVectorDigest : list byte :=
  [x39; x6c; x26; x9c; xa1; x5e; x98; xa1; x36; x20; xb8; xcc; xeb; x48;
   xf5; xb2; x8d; x68; x45; x70; xc5; x25; x8a; xaf; x3a; x26; x25; x65;
   x30; x72; xbe; xe5].

Definition testVectorKey : string :=
  "$argon2id$v=19$m=65536,t=1,p=4$c2FsdA$OWwmnKFemKE2ILjM60j1so1oRXDFJYqvOiYlZTByvuU".

Definition resize (k : nat) (l : list byte) : list byte :=
  firstn k (l ++ repeat x00 k)%list.

(** A test double for the digest: the test vector where the library is
    known to give it, and elsewhere its arguments cut or padded to the
    length asked for. *)
Definition testDigest : argon2.Digest :=
  fun password salt time memory threads keyLen =>
    if (subtle.bytes_eqb password (list_byte_of_string "password")
        && subtle.bytes_eqb salt (list_byte_of_string "salt")
        && (time =? 1) && (memory =? 65536) && (threads =? 4)
        && (keyLen =? 32))%bool
    then testVectorDigest
    else resize (Z.to_nat keyLen)
           (password ++ salt
              ++ [base64.byte_of_Z time; base64.byte_of_Z memory;
                  base64.byte_of_Z threads])%list.



(** A key made with other costs than the defaults: memory 4096, time 3,
    one thread, 16 bytes. *)
Definition otherSalt : list byte := list_byte_of_string "0123456789abcdef".

Definition otherHash : list byte :=
  testDigest (list_byte_of_string "hunter2") otherSalt 3 4096 1 16.

End TestVectors.

Module Alphabet.
Import base64.

(** The input of the decoder without the line breaks it drops. *)
Fixpoint payload (s : string) : string :=
  match s with
  | EmptyString => EmptyString
  | String c rest =>
      if Ascii.eqb c "010"%char || Ascii.eqb c "013"%char then payload rest
      else String c (payload rest)
  end.

(** Every byte of [s] is one of [set]. *)
Fixpoint allIn (set s : string) : bool :=
  match s with
  | EmptyString => true
  | String c rest => fmt.indexByte set c && allIn set rest
  end.

(** [len(s)] of a Go string: its number of bytes. *)
Definition len (s : string) : Z := Z.of_nat (String.length s).

(** [EncodedLen] and [DecodedLen] of an encoding without padding. *)
Definition EncodedLen (n : Z) : Z := ((n * 8 + 5) / 6)%Z.
Definition DecodedLen (n : Z) : Z := (n * 6 / 8)%Z.

End Alphabet.

Module StoreData.
Import Go gofman validate services sqlite.
Local Open Scope Z_scope.

Definition unauthorizedFilter : error :=
  Error EUNAUTHORIZED "You are not allowed to search using this filter.".

Definition deleteStatement (id : string) : statement :=
  mkStatement "DELETE FROM sessions WHERE id = ?" [Text id].

(** The one query of [findSessionForToken]. *)
Definition tokenStatement `{Tx} (id token : string) : statement :=
  mkStatement
    (selectSessions ++ "1 = 1 AND id = ? AND token = ?" ++ orderBy
       ++ formatLimitOffset 1 0)
    [Text id; Text token].

Definition sessionInsert `{Tx} (id userID token : string) : statement :=
  mkStatement insertSession [Text id; Text userID; Text token; Integer now].

Definition tagInsert `{Tx} (id userID name : string) : statement :=
  mkStatement insertTag
    [Text id; Text userID; Text name; Integer now; Integer now; Integer 0].

(** A test double: a transaction at time 1700000000 on a store that holds
    the session s1 of alice and the user alice, gives the id "id-1" and
    executes every statement. *)
Definition aliceToken : string := "0123456789abcdef0123456789abcdef".

Definition testTx : Tx :=
  mkTx 1700000000 ("id-1", None) None
    (fun limit offset => "LIMIT 1")
    (fun _ _ =>
       (mkRows [Scanned (mkSessionColumns "s1" "alice" aliceToken 0 1)] None,
        None))
    (fun _ _ =>
       (mkRows [Scanned (mkUserColumns "alice" "alice" "secret-a" false 0 0 0 1)]
          None, None))
    (fun _ _ => (mkRows [] None, None))
    (fun _ _ => None).

Definition testDB : DB := fun _ => inl testTx.

(** The user service of the server on that database. *)
Definition testUsers : http.UserService :=
  fun ctx id =>
    match UserService_FindUserByID (H := testDB) [] ctx id with
    | Return res => res
    | Panic _ => (None, None)
    end.

Definition aliceCookies : http.Request :=
  http.mkRequest [("Session", "s1"); ("Token", aliceToken)] [].

(** A transaction whose database has the service of package auth. *)
Definition authTx (D : argon2.Digest) : Tx :=
  mkTx 1700000000 ("id-1", None) (Some (@authService D))
    (fun limit offset => "LIMIT 1")
    (fun _ _ => (mkRows [] None, None))
    (fun _ _ => (mkRows [] None, None))
    (fun _ _ => (mkRows [] None, None))
    (fun _ _ => None).

End StoreData.

Module SystemData.
Import Go gofman path_traversal.

(** Two systems for tests: one whose user has the home directory
    /home/alice, with a join that puts a slash between its arguments, and
    one without a current user. *)
Definition aliceSystem : System :=
  mkSystem "/" ("/home/alice", None) (fun a b => a ++ "/" ++ b).

Definition noUserSystem : System :=
  mkSystem "/" (EmptyString, Some (LibError "os/user")) (fun a b => a ++ "/" ++ b).

End SystemData.

(** * Theorems *)

(** * The authorization policy *)
Module Policy.
Import Go gofman PolicyData.

Lemma UserID_of_user (ctx : Context) (u : User) :
  UserFromContext ctx = Some u -> UserIDFromContext ctx = User_ID u.
Proof. unfold UserIDFromContext. intros ->. reflexivity. Qed.

(** The address of a new variable differs from every pointer there was. *)
Lemma fresh_ptr_neq (h : store) (p : ptr) (v : string) :
  valid_ptr h p -> ptr_eqb p (Some (snd (alloc h v))) = false.
Proof.
  destruct p as [a|]; simpl; intros Hv; [|reflexivity].
  apply Nat.eqb_neq. lia.
Qed.

(** C1 (the code differs): with a user in the context, [CanUpdateUser]
    never looks at the target: it permits every user that is no demo user,
    admin or not, whoever the target is. *)
Theorem CanUpdateUser_ignores_target (ctx : Context) (target : option User)
    (u : User) :
  UserFromContext ctx = Some u ->
  CanUpdateUser ctx target = Return (negb (User_IsDemo u)).
Proof.
  intros Hu. unfold CanUpdateUser.
  rewrite (UserID_of_user _ _ Hu), Hu. simpl.
  destruct (User_IsDemo u); simpl; [reflexivity|].
  rewrite String.eqb_refl. reflexivity.
Qed.

Lemma CanUpdateUser_ignores_target_witness :
  UserFromContext (asUser alice) = Some alice
  /\ CanUpdateUser (asUser alice) (Some bob) = Return true
  /\ CanUpdateUser_policy (asUser alice) bob = false.
Proof.
  split; [reflexivity|]. split; [|reflexivity].
  exact (CanUpdateUser_ignores_target (asUser alice) (Some bob) alice eq_refl).
Defined.

(** C10: for a context without a user, [CanUpdateUser] dereferences the
    nil pointer in its second condition and panics; it returns nothing, so
    the last branch, which needs a context without a user, is never the
    one that returns. *)
Theorem CanUpdateUser_anonymous_panics (ctx : Context) (target : option User) :
  UserFromContext ctx = None ->
  CanUpdateUser ctx target
    = Panic "invalid memory address or nil pointer dereference"
  /\ forall b : bool, CanUpdateUser ctx target <> Return b.
Proof.
  intros Hu.
  assert (E : CanUpdateUser ctx target
              = Panic "invalid memory address or nil pointer dereference").
  { unfold CanUpdateUser. rewrite Hu. reflexivity. }
  split; [exact E|].
  intros b Hb. rewrite E in Hb. discriminate Hb.
Qed.

Lemma CanUpdateUser_anonymous_panics_witness :
  CanUpdateUser [] (Some bob)
  = Panic "invalid memory address or nil pointer dereference".
Proof.
  exact (proj1 (CanUpdateUser_anonymous_panics [] (Some bob) eq_refl)).
Defined.

(** C2 (the code differs): the find predicates compare the filter's
    pointer with the address of their own local variable, so they permit no
    filter at all, the one naming the acting user included. *)
Theorem CanFind_never_permits (h : store) (ctx : Context)
    (ff : FileFilter) (tf : TagFilter) (af : ActorFilter) :
  valid_ptr h (FileFilter_UserID ff) ->
  valid_ptr h (TagFilter_UserID tf) ->
  valid_ptr h (ActorFilter_UserID af) ->
  CanFindFile h ctx ff = false
  /\ CanFindTag h ctx tf = false
  /\ CanFindActor h ctx af = false.
Proof.
  intros Hf Ht Ha.
  unfold CanFindFile, CanFindTag, CanFindActor.
  pose proof (fresh_ptr_neq h _ (UserIDFromContext ctx) Hf) as Ef.
  pose proof (fresh_ptr_neq h _ (UserIDFromContext ctx) Ht) as Et.
  pose proof (fresh_ptr_neq h _ (UserIDFromContext ctx) Ha) as Ea.
  simpl in *. rewrite Ef, Et, Ea, andb_false_r. auto.
Qed.

Lemma CanFind_never_permits_witness :
  CanFindFile ["alice"] (asUser alice) (filesOf (Some 0)) = false
  /\ CanFind_policy ["alice"] (asUser alice) (Some 0) = true.
Proof.
  split; [|reflexivity].
  apply (CanFind_never_permits ["alice"] (asUser alice) (filesOf (Some 0))
           (tagsOf (Some 0)) (actorsOf (Some 0))); simpl; lia.
Defined.

Ltac mutate_inv H :=
  match type of H with
  | context [UserFromContext ?ctx] =>
      let u := fresh "u" in
      let Hu := fresh "Hu" in
      let Hd := fresh "Hd" in
      destruct (UserFromContext ctx) as [u|] eqn:Hu; simpl in H;
      [ destruct (User_IsDemo u) eqn:Hd; simpl in H; [discriminate H|]
      | discriminate H ]
  end.

(** C8: the mutate predicates of file, tag and actor deny a demo user
    whatever the resource, its own included; when they permit, a user is
    present in the context, is no demo user, and its id is the resource's
    owner id. *)
Theorem CanUpdate_owner_not_demo (ctx : Context) :
  (isDemo (UserFromContext ctx) = true ->
   forall (file : option File) (tag : option Tag) (actor : option Actor),
     CanUpdateFile ctx file = Return false
     /\ CanUpdateTag ctx tag = Return false
     /\ CanUpdateActor ctx actor = Return false)
  /\ (forall file : File, CanUpdateFile ctx (Some file) = Return true ->
      exists u, UserFromContext ctx = Some u /\ User_IsDemo u = false
                /\ User_ID u = File_UserID file)
  /\ (forall tag : Tag, CanUpdateTag ctx (Some tag) = Return true ->
      exists u, UserFromContext ctx = Some u /\ User_IsDemo u = false
                /\ User_ID u = Tag_UserID tag)
  /\ (forall actor : Actor, CanUpdateActor ctx (Some actor) = Return true ->
      exists u, UserFromContext ctx = Some u /\ User_IsDemo u = false
                /\ User_ID u = Actor_UserID actor).
Proof.
  split.
  { intros Hd file tag actor.
    unfold CanUpdateFile, CanUpdateTag, CanUpdateActor.
    rewrite Hd. auto. }
  unfold CanUpdateFile, CanUpdateTag, CanUpdateActor, UserIDFromContext.
  repeat split; intros x H; mutate_inv H;
    destruct (String.eqb (User_ID u) EmptyString); simpl in H;
    try discriminate H;
    injection H as H; apply String.eqb_eq in H;
    exists u; auto.
Qed.

Lemma CanUpdate_owner_not_demo_witness :
  User_ID demo = File_UserID demoFile
  /\ CanUpdateFile (asUser demo) (Some demoFile) = Return false
  /\ CanUpdateTag (asUser demo) (Some demoTag) = Return false
  /\ CanUpdateActor (asUser demo) (Some demoActor) = Return false.
Proof.
  split; [reflexivity|].
  exact (proj1 (CanUpdate_owner_not_demo (asUser demo)) eq_refl
           (Some demoFile) (Some demoTag) (Some demoActor)).
Defined.

End Policy.

(** * The session authenticator *)
Module Authenticator.
Import Go gofman http Resolution.

Section Resolve.
Context {W : Type} `{ResponseWriter W} `{SessionService} `{UserService}.

Lemma pair_cases {A : Type} (res : option A * option error) :
  (exists a, res = (Some a, None)) \/ notFound res.
Proof.
  destruct res as [[a|] [e|]]; unfold notFound; simpl;
    first [ left; eexists; reflexivity
          | right; left; reflexivity
          | right; right; discriminate ].
Qed.

Lemma notFound_not_found {A : Type} (res : option A * option error) (a : A) :
  notFound res -> res <> (Some a, None).
Proof.
  intros [Hn|Hn] ->; simpl in Hn; [discriminate Hn | apply Hn; reflexivity].
Qed.

(** Every request is of one of the two kinds. *)
Lemma resolve_cases (r : Request) :
  anonymous r \/ exists session user, resolved r session user.
Proof.
  destruct (Cookie r "Session") as [sid|] eqn:Es;
    [|left; apply no_session_cookie; exact Es].
  destruct (Cookie r "Token") as [tok|] eqn:Et;
    [|left; apply no_token_cookie; exact Et].
  destruct (pair_cases (FindSessionForToken (Ctx r) sid tok)) as [[s Hs]|Hs];
    [|left; eapply no_session; eassumption].
  destruct (pair_cases (FindUserByID (Ctx r) (Session_UserID s))) as [[u Hu]|Hu];
    [|left; eapply no_user; eassumption].
  right. exists s, u. eapply resolved_intro; eassumption.
Qed.

Lemma authenticate_anonymous (next : Handler) (w : W) (r : Request) :
  anonymous r -> authenticate next w r = next w r.
Proof.
  unfold authenticate.
  intros [Es|Et|sid tok Es Et Hs|sid tok s Es Et Hs Hu].
  - rewrite Es. reflexivity.
  - rewrite Et. destruct (Cookie r "Session"); reflexivity.
  - rewrite Es, Et.
    destruct (FindSessionForToken (Ctx r) sid tok) as [[s|] [e|]] eqn:E;
      try reflexivity.
    exfalso. exact (notFound_not_found _ s Hs eq_refl).
  - rewrite Es, Et, Hs.
    destruct (FindUserByID (Ctx r) (Session_UserID s)) as [[u|] [e|]] eqn:E;
      try reflexivity.
    exfalso. exact (notFound_not_found _ u Hu eq_refl).
Qed.

Lemma authenticate_resolved (next : Handler) (w : W) (r : Request)
    (session : Session) (user : User) :
  resolved r session user ->
  authenticate next w r = next w (identified r session user).
Proof.
  intros [sid tok Es Et Hs Hu]. unfold authenticate.
  rewrite Es, Et, Hs, Hu. reflexivity.
Qed.

(** C9: the resolve stage fails no request.  Whatever the request, the
    middleware hands it to the next handler and returns what that handler
    returns: unchanged, with nothing put into its context, when a cookie
    is absent or the session or its user is not found, and with the
    session and the user in its context exactly when every lookup
    succeeds. *)
Theorem authenticate_never_fails (next : Handler) (w : W) (r : Request) :
  (anonymous r -> authenticate next w r = next w r)
  /\ (forall session user, resolved r session user ->
        authenticate next w r = next w (identified r session user)
        /\ UserFromContext (Ctx (identified r session user)) = Some user
        /\ SessionFromContext (Ctx (identified r session user)) = Some session
        /\ ~ anonymous r)
  /\ (anonymous r \/ exists session user, resolved r session user).
Proof.
  split; [apply authenticate_anonymous|].
  split; [|apply resolve_cases].
  intros session user Hr.
  split; [apply authenticate_resolved; exact Hr|].
  split; [reflexivity|]. split; [reflexivity|].
  destruct Hr as [sid tok Es Et Hs Hu].
  intros [Es'|Et'|sid' tok' Es' Et' Hs'|sid' tok' s' Es' Et' Hs' Hu'].
  - congruence.
  - congruence.
  - assert (sid' = sid) by congruence. assert (tok' = tok) by congruence.
    subst. exact (notFound_not_found _ session Hs' Hs).
  - assert (sid' = sid) by congruence. assert (tok' = tok) by congruence.
    subst. assert (s' = session) by congruence. subst.
    exact (notFound_not_found _ user Hu' Hu).
Qed.

End Resolve.

Lemma authenticate_never_fails_witness :
  authenticate serve [] noCookies = [Served None None]
  /\ authenticate serve [] wrongToken = [Served None None].
Proof.
  split.
  - apply (proj1 (authenticate_never_fails serve [] noCookies)).
    apply no_session_cookie. reflexivity.
  - apply (proj1 (authenticate_never_fails serve [] wrongToken)).
    apply (no_session wrongToken "s1" "guess"); [reflexivity|reflexivity|].
    right. discriminate.
Defined.

End Authenticator.

(** * Facts about the library models *)
Module Base64Facts.
Import base64 Sextets.
Local Open Scope Z_scope.

(** Induction over a list three elements at a time, as [Encode] reads. *)
Lemma list_ind3 {A : Type} (P : list A -> Prop) :
  P [] -> (forall a, P [a]) -> (forall a b, P [a; b]) ->
  (forall a b c l, P l -> P (a :: b :: c :: l)) ->
  forall l, P l.
Proof.
  intros H0 H1 H2 H3. fix IH 1.
  intros [|a [|b [|c l]]];
    [exact H0 | apply H1 | apply H2 | apply H3; apply IH].
Qed.

Lemma Z_of_byte_range (b : byte) : 0 <= Z_of_byte b < 256.
Proof.
  unfold Z_of_byte. pose proof (Byte.to_N_bounded b) as Hb.
  lia.
Qed.

Lemma land_255 (x : Z) : Z.land x 255 = x mod 256.
Proof. change 255 with (Z.ones 8). rewrite Z.land_ones by lia. reflexivity. Qed.

Lemma land_63 (x : Z) : Z.land x 63 = x mod 64.
Proof. change 63 with (Z.ones 6). rewrite Z.land_ones by lia. reflexivity. Qed.

Lemma byte_of_Z_mod (x : Z) (b : byte) :
  x mod 256 = Z_of_byte b -> byte_of_Z x = b.
Proof.
  intros Hx. unfold byte_of_Z. rewrite land_255, Hx.
  unfold Z_of_byte. rewrite N2Z.id, Byte.of_to_N. reflexivity.
Qed.

(** A bitwise or of two numbers without common bits is their sum. *)
Lemma lor_add (a b k : Z) :
  0 <= k -> a mod 2 ^ k = 0 -> 0 <= b < 2 ^ k -> Z.lor a b = a + b.
Proof.
  intros Hk Ha Hb.
  assert (Hland : Z.land a b = 0).
  { apply Z.bits_inj'. intros n Hn.
    rewrite Z.land_spec, Z.bits_0.
    destruct (Z.lt_ge_cases n k) as [Hlt|Hge].
    - rewrite <- (Z.mod_pow2_bits_low a k n) by lia.
      rewrite Ha, Z.bits_0. reflexivity.
    - rewrite <- (Z.mod_small b (2 ^ k)) by lia.
      rewrite Z.mod_pow2_bits_high by lia. apply andb_false_r. }
  rewrite <- Z.lxor_lor by exact Hland.
  symmetry. apply Z.add_nocarry_lxor. exact Hland.
Qed.

(** The value assembled from three bytes, and its four sextets. *)
Lemma assemble3 (x0 x1 x2 : Z) :
  0 <= x0 < 256 -> 0 <= x1 < 256 -> 0 <= x2 < 256 ->
  Z.lor (Z.lor (Z.shiftl x0 16) (Z.shiftl x1 8)) x2
  = x0 * 65536 + x1 * 256 + x2.
Proof.
  intros H0 H1 H2. rewrite !Z.shiftl_mul_pow2 by lia.
  change (2 ^ 16) with 65536. change (2 ^ 8) with 256.
  rewrite (lor_add (x0 * 65536) (x1 * 256) 16); try lia.
  - rewrite (lor_add _ x2 8); try lia.
    change (2 ^ 8) with 256.
    replace (x0 * 65536 + x1 * 256) with ((x0 * 256 + x1) * 256) by lia.
    apply Z.mod_mul. lia.
  - change (2 ^ 16) with 65536.
    replace (x0 * 65536) with (x0 * 65536) by lia. apply Z.mod_mul. lia.
Qed.

Lemma assemble4 (s0 s1 s2 s3 : Z) :
  0 <= s0 < 64 -> 0 <= s1 < 64 -> 0 <= s2 < 64 -> 0 <= s3 < 64 ->
  Z.lor (Z.lor (Z.lor (Z.shiftl s0 18) (Z.shiftl s1 12)) (Z.shiftl s2 6)) s3
  = s0 * 262144 + s1 * 4096 + s2 * 64 + s3.
Proof.
  intros H0 H1 H2 H3. rewrite !Z.shiftl_mul_pow2 by lia.
  change (2 ^ 18) with 262144. change (2 ^ 12) with 4096.
  change (2 ^ 6) with 64.
  rewrite (lor_add (s0 * 262144) (s1 * 4096) 18); try lia.
  - rewrite (lor_add _ (s2 * 64) 12); try lia.
    + rewrite (lor_add _ s3 6); try lia.
      change (2 ^ 6) with 64.
      replace (s0 * 262144 + s1 * 4096 + s2 * 64)
        with ((s0 * 4096 + s1 * 64 + s2) * 64) by lia.
      apply Z.mod_mul. lia.
    + change (2 ^ 12) with 4096.
      replace (s0 * 262144 + s1 * 4096) with ((s0 * 64 + s1) * 4096) by lia.
      apply Z.mod_mul. lia.
  - change (2 ^ 18) with 262144. apply Z.mod_mul. lia.
Qed.

Lemma land_63_sextet (x : Z) : sextet (Z.land x 63).
Proof. unfold sextet. rewrite land_63. apply Z.mod_pos_bound. lia. Qed.

Lemma EncodeToString_sextetsOf (src : list byte) :
  EncodeToString src = string_of_list_ascii (List.map encodeChar (sextetsOf src)).
Proof.
  induction src as [| b0 | b0 b1 | b0 b1 b2 rest IH] using list_ind3;
    try reflexivity.
  cbn [EncodeToString sextetsOf List.map string_of_list_ascii].
  rewrite IH. reflexivity.
Qed.

Lemma sextetsOf_range (src : list byte) : Forall sextet (sextetsOf src).
Proof.
  induction src as [| b0 | b0 b1 | b0 b1 b2 rest IH] using list_ind3;
    cbn [sextetsOf]; repeat constructor; try apply land_63_sextet.
  exact IH.
Qed.

(** The alphabet has 64 distinct characters, none of them a line break
    or a dollar sign. *)
Lemma encodeChar_spec (v : Z) :
  sextet v ->
  decodeChar (encodeChar v) = Some v
  /\ (Ascii.eqb (encodeChar v) "010" || Ascii.eqb (encodeChar v) "013")%bool
     = false
  /\ Ascii.eqb (encodeChar v) "$" = false.
Proof.
  intros Hv. unfold sextet in Hv.
  assert (Hn : exists n : nat, v = Z.of_nat n /\ (n < 64)%nat).
  { exists (Z.to_nat v). lia. }
  destruct Hn as [n [-> Hn]].
  do 64 (destruct n as [|n]; [repeat split|]).
  lia.
Qed.

Lemma sextets_encode (l : list Z) :
  Forall sextet l ->
  sextets (string_of_list_ascii (List.map encodeChar l)) = Some l.
Proof.
  induction 1 as [|v l Hv _ IH]; [reflexivity|].
  cbn [List.map string_of_list_ascii sextets].
  destruct (encodeChar_spec v Hv) as [Hd [Hnl _]].
  rewrite Hnl, Hd, IH. reflexivity.
Qed.

Ltac to_arith :=
  rewrite ?land_63, ?Z.shiftr_div_pow2, ?Z.shiftl_mul_pow2 by lia;
  change (2 ^ 18) with 262144; change (2 ^ 16) with 65536;
  change (2 ^ 12) with 4096; change (2 ^ 8) with 256;
  change (2 ^ 6) with 64.

Lemma quantum1 (x0 : Z) :
  0 <= x0 < 256 ->
  let val := Z.shiftl x0 16 in
  let s0 := Z.land (Z.shiftr val 18) 63 in
  let s1 := Z.land (Z.shiftr val 12) 63 in
  Z.shiftr (Z.lor (Z.shiftl s0 18) (Z.shiftl s1 12)) 16 mod 256 = x0.
Proof.
  intros H0 val s0 s1.
  pose proof (assemble4 s0 s1 0 0 (land_63_sextet _) (land_63_sextet _)) as E.
  rewrite Z.shiftl_0_l, !Z.lor_0_r in E. rewrite E by lia. clear E.
  subst s0 s1 val. to_arith.
  Z.div_mod_to_equations. lia.
Qed.

Lemma quantum2 (x0 x1 : Z) :
  0 <= x0 < 256 -> 0 <= x1 < 256 ->
  let val := Z.lor (Z.shiftl x0 16) (Z.shiftl x1 8) in
  let s0 := Z.land (Z.shiftr val 18) 63 in
  let s1 := Z.land (Z.shiftr val 12) 63 in
  let s2 := Z.land (Z.shiftr val 6) 63 in
  let val' := Z.lor (Z.lor (Z.shiftl s0 18) (Z.shiftl s1 12)) (Z.shiftl s2 6) in
  Z.shiftr val' 16 mod 256 = x0 /\ Z.shiftr val' 8 mod 256 = x1.
Proof.
  intros H0 H1 val s0 s1 s2 val'.
  pose proof (assemble4 s0 s1 s2 0 (land_63_sextet _) (land_63_sextet _)
                (land_63_sextet _)) as E.
  rewrite Z.lor_0_r in E. fold val' in E.
  pose proof (assemble3 x0 x1 0 H0 H1) as E3.
  rewrite Z.lor_0_r in E3. fold val in E3.
  assert (Hval : val = x0 * 65536 + x1 * 256) by lia.
  assert (Hval' : val' = val - val mod 64).
  { rewrite E by lia. subst s0 s1 s2. to_arith. rewrite Hval.
    Z.div_mod_to_equations. lia. }
  rewrite Hval', Hval. to_arith.
  split; Z.div_mod_to_equations; lia.
Qed.

Lemma quantum3 (x0 x1 x2 : Z) :
  0 <= x0 < 256 -> 0 <= x1 < 256 -> 0 <= x2 < 256 ->
  let val := Z.lor (Z.lor (Z.shiftl x0 16) (Z.shiftl x1 8)) x2 in
  let s0 := Z.land (Z.shiftr val 18) 63 in
  let s1 := Z.land (Z.shiftr val 12) 63 in
  let s2 := Z.land (Z.shiftr val 6) 63 in
  let s3 := Z.land val 63 in
  let val' :=
    Z.lor (Z.lor (Z.lor (Z.shiftl s0 18) (Z.shiftl s1 12)) (Z.shiftl s2 6)) s3 in
  Z.shiftr val' 16 mod 256 = x0 /\ Z.shiftr val' 8 mod 256 = x1
  /\ val' mod 256 = x2.
Proof.
  intros H0 H1 H2 val s0 s1 s2 s3 val'.
  pose proof (assemble4 s0 s1 s2 s3 (land_63_sextet _) (land_63_sextet _)
                (land_63_sextet _) (land_63_sextet _)) as E.
  fold val' in E.
  pose proof (assemble3 x0 x1 x2 H0 H1 H2) as Hval. fold val in Hval.
  assert (Hval' : val' = val).
  { rewrite E. subst s0 s1 s2 s3. to_arith. rewrite Hval.
    Z.div_mod_to_equations. lia. }
  rewrite Hval', Hval. to_arith.
  repeat split; Z.div_mod_to_equations; lia.
Qed.

Lemma quanta_sextetsOf (src : list byte) : quanta (sextetsOf src) = Some src.
Proof.
  induction src as [| b0 | b0 b1 | b0 b1 b2 rest IH] using list_ind3.
  - reflexivity.
  - cbn [sextetsOf quanta].
    pose proof (quantum1 _ (Z_of_byte_range b0)) as E. cbv zeta in E.
    rewrite (byte_of_Z_mod _ b0 E). reflexivity.
  - cbn [sextetsOf quanta].
    pose proof (quantum2 _ _ (Z_of_byte_range b0) (Z_of_byte_range b1)) as E.
    cbv zeta in E. destruct E as [E0 E1].
    rewrite (byte_of_Z_mod _ b0 E0), (byte_of_Z_mod _ b1 E1). reflexivity.
  - cbn [sextetsOf quanta]. rewrite IH. cbn [option_map].
    pose proof (quantum3 _ _ _ (Z_of_byte_range b0) (Z_of_byte_range b1)
                  (Z_of_byte_range b2)) as E.
    cbv zeta in E. destruct E as [E0 [E1 E2]].
    rewrite (byte_of_Z_mod _ b0 E0), (byte_of_Z_mod _ b1 E1),
      (byte_of_Z_mod _ b2 E2).
    reflexivity.
Qed.

(** Decoding what [EncodeToString] made gives the bytes back. *)
Lemma decoded_EncodeToString (src : list byte) :
  decoded (EncodeToString src) = Some src.
Proof.
  unfold decoded.
  rewrite EncodeToString_sextetsOf, sextets_encode by apply sextetsOf_range.
  apply quanta_sextetsOf.
Qed.

Lemma DecodeString_EncodeToString (src : list byte) :
  DecodeString (EncodeToString src) = (src, None).
Proof. unfold DecodeString. rewrite decoded_EncodeToString. reflexivity. Qed.

(** No dollar sign in an encoded string. *)
Lemma EncodeToString_no_dollar (src : list byte) :
  fmt.indexByte (EncodeToString src) "$" = false.
Proof.
  rewrite EncodeToString_sextetsOf.
  induction (sextetsOf_range src) as [|v l Hv _ IH]; [reflexivity|].
  cbn [List.map string_of_list_ascii fmt.indexByte].
  destruct (encodeChar_spec v Hv) as [_ [_ Hd]].
  rewrite Hd, IH. reflexivity.
Qed.

End Base64Facts.

Module StringsFacts.
Import strings.

Lemma append_assoc (a b c : string) : ((a ++ b) ++ c = a ++ (b ++ c))%string.
Proof. induction a as [|x a IH]; simpl; [reflexivity | rewrite IH; reflexivity]. Qed.

Lemma append_nil_r (a : string) : (a ++ EmptyString = a)%string.
Proof. induction a as [|x a IH]; simpl; [reflexivity | rewrite IH; reflexivity]. Qed.

Lemma indexByte_app (a b : string) (c : ascii) :
  fmt.indexByte (a ++ b) c = fmt.indexByte a c || fmt.indexByte b c.
Proof.
  induction a as [|x a IH]; simpl; [reflexivity|].
  rewrite IH. apply orb_assoc.
Qed.

(** A string without the separator is one piece. *)
Lemma Split_one (s : string) (sep : ascii) :
  fmt.indexByte s sep = false -> Split s sep = [s].
Proof.
  induction s as [|x s IH]; simpl; [reflexivity|].
  intros H. apply orb_false_elim in H. destruct H as [Hx Hs].
  rewrite Hx, (IH Hs). reflexivity.
Qed.

(** The first piece ends at the first separator. *)
Lemma Split_app (a rest : string) (sep : ascii) :
  fmt.indexByte a sep = false ->
  Split (a ++ String sep rest) sep = a :: Split rest sep.
Proof.
  induction a as [|x a IH]; simpl; intros H.
  - rewrite Ascii.eqb_refl. reflexivity.
  - apply orb_false_elim in H. destruct H as [Hx Ha].
    rewrite Hx, (IH Ha). reflexivity.
Qed.

End StringsFacts.

Module FmtFacts.
Import fmt strconv StringsFacts Digits.
Local Open Scope Z_scope.

Lemma digitsFrom_string_of_uint (d : Decimal.uint) (acc : Z) :
  digitsFrom (NilEmpty.string_of_uint d) acc = Some (uintValue d acc).
Proof.
  revert acc. induction d; intros acc; cbn [NilEmpty.string_of_uint uintValue];
    [reflexivity | ..];
    cbn [digitsFrom]; apply IHd.
Qed.

Lemma uintValue_acc (d : Decimal.uint) (p : positive) :
  uintValue d (Z.pos p) = Z.pos (Pos.of_uint_acc d p).
Proof.
  revert p. induction d; intros p; cbn [uintValue Pos.of_uint_acc];
    [reflexivity | ..];
    rewrite <- IHd; f_equal; lia.
Qed.

Lemma uintValue_of_uint (d : Decimal.uint) :
  uintValue d 0 = Z.of_N (Pos.of_uint d).
Proof.
  induction d; cbn [uintValue Pos.of_uint]; [reflexivity | exact IHd | ..];
    cbn [Z.mul Z.add Z.of_N]; apply uintValue_acc.
Qed.

Lemma uintValue_to_uint (p : positive) : uintValue (Pos.to_uint p) 0 = Z.pos p.
Proof.
  rewrite uintValue_of_uint, DecimalPos.Unsigned.of_to. reflexivity.
Qed.

Lemma formatInt_digits (n : Z) :
  0 <= n -> formatInt n = NilEmpty.string_of_uint (digitsOf n).
Proof.
  intros Hn. destruct n as [|p|p]; [reflexivity| |lia].
  unfold formatInt, digitsOf. cbn [Z.to_int NilZero.string_of_int].
  unfold NilZero.string_of_uint.
  pose proof (DecimalPos.Unsigned.to_uint_nonnil p) as Hp.
  destruct (Pos.to_uint p); [contradiction | reflexivity ..].
Qed.

Lemma digitsOf_nonnil (n : Z) : digitsOf n <> Decimal.Nil.
Proof.
  destruct n as [|p|p]; try discriminate.
  apply DecimalPos.Unsigned.to_uint_nonnil.
Qed.

Lemma uintValue_digitsOf (n : Z) : 0 <= n -> uintValue (digitsOf n) 0 = n.
Proof.
  intros Hn. destruct n as [|p|p]; [reflexivity| |lia].
  apply uintValue_to_uint.
Qed.

Lemma acceptAll_digits (d : Decimal.uint) (rest : string) :
  stops rest ->
  acceptAll decimalDigits (NilEmpty.string_of_uint d ++ rest)
  = (NilEmpty.string_of_uint d, rest).
Proof.
  intros Hr.
  induction d; cbn [NilEmpty.string_of_uint append];
    [ destruct rest as [|c rest]; [reflexivity|];
      cbn [acceptAll]; unfold stops in Hr; rewrite Hr; reflexivity
    | cbn [acceptAll]; rewrite IHd; reflexivity .. ].
Qed.

Lemma SkipSpace_digits (d : Decimal.uint) (rest : string) :
  d <> Decimal.Nil ->
  SkipSpace (NilEmpty.string_of_uint d ++ rest)
  = Some (NilEmpty.string_of_uint d ++ rest).
Proof.
  intros Hd. destruct d; [contradiction | ..];
    cbn [NilEmpty.string_of_uint append];
    destruct (NilEmpty.string_of_uint d ++ rest)%string as [|c2 [|c3 t]];
    reflexivity.
Qed.

Lemma string_of_uint_nonempty (d : Decimal.uint) :
  d <> Decimal.Nil -> NilEmpty.string_of_uint d <> EmptyString.
Proof. destruct d; [contradiction | discriminate ..]. Qed.

Lemma string_of_uint_no_dollar (d : Decimal.uint) :
  indexByte (NilEmpty.string_of_uint d) "$" = false.
Proof. induction d; cbn [NilEmpty.string_of_uint indexByte]; auto. Qed.

Lemma formatInt_no_dollar (n : Z) : 0 <= n -> indexByte (formatInt n) "$" = false.
Proof. intros Hn. rewrite formatInt_digits by exact Hn. apply string_of_uint_no_dollar. Qed.

(** Scanning what [%d] printed gives the number back. *)
Lemma scanUint_formatInt (bitSize n : Z) (rest : string) :
  0 <= n < 2 ^ bitSize -> 0 <= bitSize <= 64 -> stops rest ->
  scanUint bitSize (formatInt n ++ rest) = Some (n, rest).
Proof.
  intros Hn Hb Hr.
  rewrite formatInt_digits by lia.
  pose proof (digitsOf_nonnil n) as Hd.
  unfold scanUint. rewrite SkipSpace_digits by exact Hd.
  unfold scanNumber.
  destruct (NilEmpty.string_of_uint (digitsOf n) ++ rest)%string eqn:E.
  { exfalso. destruct (digitsOf n); [contradiction | discriminate ..]. }
  rewrite <- E. rewrite acceptAll_digits by exact Hr.
  pose proof (string_of_uint_nonempty _ Hd) as Hne.
  destruct (NilEmpty.string_of_uint (digitsOf n)) as [|c tok] eqn:Et;
    [contradiction|].
  rewrite <- Et. unfold ParseUint. rewrite Et, <- Et.
  rewrite digitsFrom_string_of_uint, uintValue_digitsOf by lia.
  assert (H64 : 2 ^ bitSize <= 2 ^ 64) by (apply Z.pow_le_mono_r; lia).
  destruct (Z.ltb_spec n (2 ^ 64)); [|lia].
  destruct (Z.ltb_spec n (2 ^ bitSize)); [reflexivity|lia].
Qed.

End FmtFacts.

(** * Credentials: random bytes, hashing and verification *)
Module Credentials.
Import Go gofman auth StringsFacts FmtFacts Base64Facts Digits TestVectors.
Local Open Scope Z_scope.

Lemma formatKey_shape (version memory time threads : Z) (s h : string) :
  formatKey version memory time threads s h
  = (EmptyString ++ String "$" ("argon2id" ++ String "$"
       (("v=" ++ fmt.formatInt version) ++ String "$"
          (parameters memory time threads ++ String "$"
             (s ++ String "$" h)))))%string.
Proof.
  unfold formatKey, parameters. rewrite !append_assoc. reflexivity.
Qed.

Lemma parameters_no_dollar (memory time threads : Z) :
  0 <= memory -> 0 <= time -> 0 <= threads ->
  fmt.indexByte (parameters memory time threads) "$" = false.
Proof.
  intros Hm Ht Hp. unfold parameters.
  rewrite !indexByte_app, !formatInt_no_dollar by assumption.
  reflexivity.
Qed.

(** A key made by [formatKey] splits into its six pieces. *)
Lemma Split_formatKey (memory time threads : Z) (salt hash : list byte) :
  0 <= memory -> 0 <= time -> 0 <= threads ->
  strings.Split
    (formatKey argon2.Version memory time threads
       (EncodeToBase64String salt) (EncodeToBase64String hash)) "$"
  = [EmptyString; "argon2id"; "v=19"; parameters memory time threads;
     EncodeToBase64String salt; EncodeToBase64String hash].
Proof.
  intros Hm Ht Hp. rewrite formatKey_shape.
  rewrite Split_app by reflexivity.
  rewrite Split_app by reflexivity.
  rewrite Split_app by reflexivity.
  rewrite Split_app by (apply parameters_no_dollar; assumption).
  rewrite Split_app by apply EncodeToString_no_dollar.
  rewrite Split_one by apply EncodeToString_no_dollar.
  reflexivity.
Qed.

Lemma Sscanf_parameters (memory time threads : Z) :
  0 <= memory < 2 ^ 32 -> 0 <= time < 2 ^ 32 -> 0 <= threads < 2 ^ 8 ->
  fmt.Sscanf (parameters memory time threads) "m=%d,t=%d,p=%d"
    [fmt.Uint32Ptr; fmt.Uint32Ptr; fmt.Uint8Ptr]
  = Some [memory; time; threads].
Proof.
  intros Hm Ht Hp. unfold parameters.
  cbn [fmt.Sscanf append Ascii.eqb Bool.eqb fmt.scanOne].
  rewrite scanUint_formatInt by (try reflexivity; lia).
  cbn [fmt.Sscanf append Ascii.eqb Bool.eqb fmt.scanOne option_map].
  rewrite scanUint_formatInt by (try reflexivity; lia).
  cbn [fmt.Sscanf append Ascii.eqb Bool.eqb fmt.scanOne option_map].
  rewrite <- (append_nil_r (fmt.formatInt threads)).
  rewrite scanUint_formatInt by (try exact I; lia).
  reflexivity.
Qed.

Lemma bytes_eqb_eq (x y : list byte) : subtle.bytes_eqb x y = true <-> x = y.
Proof.
  revert y. induction x as [|a x IH]; intros [|b y]; simpl; split;
    try discriminate; try reflexivity.
  - intros H. apply andb_true_iff in H. destruct H as [Hab Hxy].
    apply Byte.byte_dec_bl in Hab. apply IH in Hxy. subst. reflexivity.
  - intros H. injection H as -> ->.
    rewrite (Byte.byte_dec_lb (x := b) (y := b) eq_refl). simpl. apply IH. reflexivity.
Qed.

Lemma DecodeBase64String_Encode (b : list byte) :
  DecodeBase64String (EncodeToBase64String b) = (b, None).
Proof.
  unfold DecodeBase64String, EncodeToBase64String.
  apply DecodeString_EncodeToString.
Qed.

(** ** Random bytes *)

(** C7 as stated fails: a negative length below -1 is refused with the
    code [EINTERNAL], not [EINVALID]. *)
Lemma GenerateRandomBytes_negative_not_invalid :
  ~ (forall (r : rand.Reader) (n : Z), n < 0 ->
       exists e r', GenerateRandomBytes r n = Return (([], Some e), r')
                    /\ ErrorCode (Some e) = EINVALID).
Proof.
  intros H. destruct (H [] (-2) ltac:(lia)) as [e [r' [E Hc]]].
  cbv in E. injection E as <- _. discriminate Hc.
Qed.

(** C7, amended: for every length below -1, [GenerateRandomBytes] returns
    no bytes and the error "Length must be a positive int." of code
    [EINTERNAL], and leaves the generator untouched. *)
Theorem GenerateRandomBytes_below_minus_one (r : rand.Reader) (n : Z) :
  n < -1 ->
  GenerateRandomBytes r n
  = Return (([], Some (Error EINTERNAL "Length must be a positive int.")), r)
  /\ ErrorCode (Some (Error EINTERNAL "Length must be a positive int."))
     = EINTERNAL.
Proof.
  intros Hn. split; [|reflexivity].
  unfold GenerateRandomBytes.
  destruct (Z.ltb_spec n (-1)); [reflexivity|lia].
Qed.

Lemma GenerateRandomBytes_below_minus_one_witness :
  GenerateRandomBytes [x2a] (-10)
  = Return (([], Some (Error EINTERNAL "Length must be a positive int.")), [x2a]).
Proof.
  exact (proj1 (GenerateRandomBytes_below_minus_one [x2a] (-10) eq_refl)).
Defined.

(** The length -1 passes the guard and reaches [make]. *)
Lemma GenerateRandomBytes_minus_one (r : rand.Reader) :
  GenerateRandomBytes r (-1) = Panic "makeslice: len out of range".
Proof. reflexivity. Qed.

Section Verify.
Context {D : argon2.Digest}.

(** Verification of a key made by [formatKey] with the library's
    version: the digest is recomputed from the pieces of the key. *)
Lemma VerifyPassword_formatKey (password : string)
    (memory time threads : Z) (salt hash : list byte) :
  password <> EmptyString ->
  0 <= memory < 2 ^ 32 -> 0 <= time < 2 ^ 32 -> 0 <= threads < 2 ^ 8 ->
  VerifyPassword password
    (formatKey argon2.Version memory time threads
       (EncodeToBase64String salt) (EncodeToBase64String hash))
  = (control <- argon2.IDKey (list_byte_of_string password) salt
                  time memory threads
                  (Z.of_nat (List.length hash) mod 2 ^ 32) ;;;
     if subtle.bytes_eqb hash control then Return None
     else Return (Some (NewError EINVALID "Hash not equal password."))).
Proof.
  intros Hpw Hm Ht Hp. unfold VerifyPassword.
  destruct (String.eqb_spec password EmptyString) as [E|_]; [contradiction|].
  replace (String.eqb (formatKey argon2.Version memory time threads
             (EncodeToBase64String salt) (EncodeToBase64String hash))
             EmptyString) with false by reflexivity.
  rewrite Split_formatKey by lia.
  cbn [List.length Nat.eqb negb nth].
  replace (fmt.Sscanf "v=19" "v=%d" [fmt.IntPtr]) with (Some [argon2.Version])
    by reflexivity.
  rewrite Z.eqb_refl. cbn [negb].
  rewrite Sscanf_parameters by assumption.
  rewrite !DecodeBase64String_Encode.
  cbn [Time Memory Threads KeyLen].
  destruct (argon2.IDKey (list_byte_of_string password) salt time memory
              threads (Z.of_nat (List.length hash) mod 2 ^ 32))
    as [control|msg]; [|reflexivity].
  cbn [bind]. unfold subtle.ConstantTimeCompare.
  destruct (subtle.bytes_eqb hash control); reflexivity.
Qed.

(** C3: for a non-empty password and a non-empty salt, [HashPassword]
    returns a key and no error, and [VerifyPassword] of the password and
    that key returns no error.  The digest is any function that gives as
    many bytes as it is asked for. *)
Theorem VerifyPassword_HashPassword (password salt : string) :
  List.length (argon2.deriveKey (list_byte_of_string password)
                 (list_byte_of_string salt)
                 ArgonTime ArgonMemory ArgonThreads ArgonKeyLen)
  = Z.to_nat ArgonKeyLen ->
  password <> EmptyString -> salt <> EmptyString ->
  exists key,
    HashPassword password salt = Return (key, None)
    /\ VerifyPassword password key = Return None.
Proof.
  intros Hlen Hpw Hsalt.
  set (hash := argon2.deriveKey (list_byte_of_string password)
                 (list_byte_of_string salt)
                 ArgonTime ArgonMemory ArgonThreads ArgonKeyLen) in *.
  exists (formatKey argon2.Version ArgonMemory ArgonTime ArgonThreads
            (EncodeToBase64String (list_byte_of_string salt))
            (EncodeToBase64String hash)).
  split.
  - unfold HashPassword.
    destruct (String.eqb_spec password EmptyString) as [E|_]; [contradiction|].
    destruct (String.eqb_spec salt EmptyString) as [E|_]; [contradiction|].
    reflexivity.
  - rewrite VerifyPassword_formatKey
      by (try assumption; unfold ArgonMemory, ArgonTime, ArgonThreads; lia).
    rewrite Hlen.
    change (Z.of_nat (Z.to_nat ArgonKeyLen) mod 2 ^ 32) with ArgonKeyLen.
    change (argon2.IDKey (list_byte_of_string password)
              (list_byte_of_string salt) ArgonTime ArgonMemory ArgonThreads
              ArgonKeyLen) with (Return hash).
    cbn [bind].
    rewrite (proj2 (bytes_eqb_eq hash hash) eq_refl). reflexivity.
Qed.

(** C5: a key made of the library's version, any memory cost, time cost
    and parallelism, a salt and a hash is verified by recomputing the
    digest from the costs and the salt of the key, with the length of
    the hash of the key as output length: the defaults of the package
    play no part.  So a key made with other costs than the defaults is
    accepted for the password it was made from.  Such a key has a hash
    of one byte at least, the library giving no digest of length 0. *)
Theorem VerifyPassword_uses_key_parameters (password : string)
    (memory time threads : Z) (salt hash : list byte) :
  password <> EmptyString ->
  0 <= memory < 2 ^ 32 -> 0 <= time < 2 ^ 32 -> 0 <= threads < 2 ^ 8 ->
  Z.of_nat (List.length hash) < 2 ^ 32 ->
  VerifyPassword password
    (formatKey argon2.Version memory time threads
       (EncodeToBase64String salt) (EncodeToBase64String hash))
  = (control <- argon2.IDKey (list_byte_of_string password) salt
                  time memory threads (Z.of_nat (List.length hash)) ;;;
     if subtle.bytes_eqb hash control then Return None
     else Return (Some (NewError EINVALID "Hash not equal password.")))
  /\ (1 <= time -> 1 <= threads -> hash <> [] ->
      hash = argon2.deriveKey (list_byte_of_string password) salt
               time memory threads (Z.of_nat (List.length hash)) ->
      VerifyPassword password
        (formatKey argon2.Version memory time threads
           (EncodeToBase64String salt) (EncodeToBase64String hash))
      = Return None).
Proof.
  intros Hpw Hm Ht Hp Hlen.
  rewrite VerifyPassword_formatKey by assumption.
  rewrite Z.mod_small by lia.
  split; [reflexivity|].
  intros Ht1 Hp1 Hne Hhash. unfold argon2.IDKey.
  destruct (Z.ltb_spec time 1); [lia|].
  destruct (Z.ltb_spec threads 1); [lia|].
  destruct (Z.eqb_spec (Z.of_nat (List.length hash)) 0) as [E|_].
  { destruct hash; [contradiction | discriminate E]. }
  cbn [bind]. rewrite <- Hhash.
  rewrite (proj2 (bytes_eqb_eq hash hash) eq_refl). reflexivity.
Qed.

(** A key whose last piece is empty asks for a digest of no byte: with
    costs that the library accepts, the verification panics. *)
Lemma VerifyPassword_empty_hash_panics (password : string)
    (memory time threads : Z) (salt : list byte) :
  password <> EmptyString ->
  0 <= memory < 2 ^ 32 -> 1 <= time < 2 ^ 32 -> 1 <= threads < 2 ^ 8 ->
  VerifyPassword password
    (formatKey argon2.Version memory time threads
       (EncodeToBase64String salt) EmptyString)
  = Panic "runtime error: invalid memory address or nil pointer dereference".
Proof.
  intros Hpw Hm Ht Hp.
  change (formatKey argon2.Version memory time threads
            (EncodeToBase64String salt) EmptyString)
    with (formatKey argon2.Version memory time threads
            (EncodeToBase64String salt) (EncodeToBase64String [])).
  rewrite VerifyPassword_formatKey by (try assumption; lia).
  unfold argon2.IDKey.
  destruct (Z.ltb_spec time 1); [lia|].
  destruct (Z.ltb_spec threads 1); [lia|].
  reflexivity.
Qed.



End Verify.

(** C4: the key returned by [HashPassword] is determined by the password,
    the salt and the digest of the two at the fixed costs (time 1, memory
    65536, parallelism 4, 32 bytes): nothing else is read.  With the
    digest that the library gives for "password" and "salt", the key is
    the one of the test suite. *)
Theorem HashPassword_deterministic (D1 D2 : argon2.Digest) :
  (forall password salt : string,
     @argon2.deriveKey D1 (list_byte_of_string password)
       (list_byte_of_string salt) ArgonTime ArgonMemory ArgonThreads ArgonKeyLen
     = @argon2.deriveKey D2 (list_byte_of_string password)
         (list_byte_of_string salt) ArgonTime ArgonMemory ArgonThreads
         ArgonKeyLen ->
     @HashPassword D1 password salt = @HashPassword D2 password salt)
  /\ (@argon2.deriveKey D1 (list_byte_of_string "password")
        (list_byte_of_string "salt") 1 65536 4 32 = testVectorDigest ->
      @HashPassword D1 "password" "salt" = Return (testVectorKey, None)).
Proof.
  split.
  - intros password salt E. unfold HashPassword, argon2.IDKey.
    cbn [Z.ltb Z.compare ArgonTime ArgonThreads Pos.compare Pos.compare_cont bind].
    rewrite E. reflexivity.
  - intros E. unfold HashPassword, argon2.IDKey.
    cbn [String.eqb Ascii.eqb Bool.eqb].
    change ArgonTime with 1. change ArgonMemory with 65536.
    change ArgonThreads with 4. change ArgonKeyLen with 32.
    cbn [Z.ltb Z.compare Pos.compare Pos.compare_cont bind].
    rewrite E. reflexivity.
Qed.

Lemma HashPassword_deterministic_witness :
  @HashPassword testDigest "password" "salt" = Return (testVectorKey, None).
Proof.
  exact (proj2 (HashPassword_deterministic testDigest testDigest) eq_refl).
Defined.

Lemma VerifyPassword_HashPassword_witness :
  exists key,
    @HashPassword testDigest "hunter2" "pepper" = Return (key, None)
    /\ @VerifyPassword testDigest "hunter2" key = Return None.
Proof.
  apply (VerifyPassword_HashPassword (D := testDigest) "hunter2" "pepper");
    [reflexivity | discriminate | discriminate].
Defined.

Lemma VerifyPassword_uses_key_parameters_witness :
  @VerifyPassword testDigest "hunter2"
    (formatKey argon2.Version 4096 3 1
       (EncodeToBase64String otherSalt) (EncodeToBase64String otherHash))
  = Return None.
Proof.
  refine (proj2 (VerifyPassword_uses_key_parameters (D := testDigest)
                   "hunter2" 4096 3 1 otherSalt otherHash _ _ _ _ _) _ _ _ _);
    first [ discriminate | reflexivity | lia | (vm_compute; split; congruence) ].
Defined.



End Credentials.

(** * Further properties of the encoding *)
Module Encoding.
Import Go gofman auth base64 Sextets Alphabet Base64Facts.
Local Open Scope Z_scope.

Lemma indexFrom_range (c : ascii) (alphabet : string) (i v : Z) :
  indexFrom c alphabet i = Some v ->
  i <= v < i + Z.of_nat (String.length alphabet).
Proof.
  revert i. induction alphabet as [|a rest IH]; intros i; simpl; [discriminate|].
  destruct (Ascii.eqb a c).
  - intros E. injection E as <-. lia.
  - intros E. apply IH in E. lia.
Qed.

Lemma indexFrom_none (c : ascii) (alphabet : string) (i : Z) :
  indexFrom c alphabet i = None <-> fmt.indexByte alphabet c = false.
Proof.
  revert i. induction alphabet as [|a rest IH]; intros i; simpl.
  - split; reflexivity.
  - destruct (Ascii.eqb a c); simpl; [split; discriminate | apply IH].
Qed.

Lemma decodeChar_sextet (c : ascii) (v : Z) :
  decodeChar c = Some v -> sextet v.
Proof.
  intros E. apply indexFrom_range in E. unfold sextet.
  change (Z.of_nat (String.length encodeURL)) with 64 in E. lia.
Qed.

Lemma decodeChar_some (c : ascii) :
  fmt.indexByte encodeURL c = true -> exists v, decodeChar c = Some v.
Proof.
  intros H. unfold decodeChar.
  destruct (indexFrom c encodeURL 0) as [v|] eqn:E; [exists v; reflexivity|].
  apply indexFrom_none in E. congruence.
Qed.

(** The characters read: all of the alphabet, or the decoder fails. *)
Lemma sextets_some (s : string) :
  allIn encodeURL (payload s) = true ->
  exists l, sextets s = Some l
            /\ List.length l = String.length (payload s).
Proof.
  induction s as [|c rest IH]; simpl; intros H; [exists []; auto|].
  destruct (Ascii.eqb c "010" || Ascii.eqb c "013")%bool; [apply IH, H|].
  simpl in H. apply andb_true_iff in H. destruct H as [Hc Hrest].
  destruct (decodeChar_some c Hc) as [v ->].
  destruct (IH Hrest) as [l [-> Hl]].
  exists (v :: l). simpl. auto.
Qed.

Lemma sextets_none (s : string) :
  allIn encodeURL (payload s) = false -> sextets s = None.
Proof.
  induction s as [|c rest IH]; simpl; intros H; [discriminate|].
  destruct (Ascii.eqb c "010" || Ascii.eqb c "013")%bool; [apply IH, H|].
  simpl in H. apply andb_false_iff in H.
  destruct (decodeChar c) as [v|] eqn:E.
  - destruct H as [H|H].
    + unfold decodeChar in E.
      assert (indexFrom c encodeURL 0 = None) by (apply indexFrom_none; exact H).
      congruence.
    + rewrite (IH H). reflexivity.
  - reflexivity.
Qed.

(** Induction four elements at a time, as the decoder reads. *)
Lemma list_ind4 {A : Type} (P : list A -> Prop) :
  P [] -> (forall a, P [a]) -> (forall a b, P [a; b]) ->
  (forall a b c, P [a; b; c]) ->
  (forall a b c d l, P l -> P (a :: b :: c :: d :: l)) ->
  forall l, P l.
Proof.
  intros H0 H1 H2 H3 H4. fix IH 1.
  intros [|a [|b [|c [|d l]]]];
    [exact H0 | apply H1 | apply H2 | apply H3 | apply H4; apply IH].
Qed.

Lemma quanta_length (l : list Z) :
  match quanta l with
  | Some b =>
      Z.of_nat (List.length l) mod 4 <> 1
      /\ Z.of_nat (List.length b) = DecodedLen (Z.of_nat (List.length l))
  | None => Z.of_nat (List.length l) mod 4 = 1
  end.
Proof.
  unfold DecodedLen.
  induction l as [| a | a b | a b c | a b c d l IH] using list_ind4;
    try (cbn; split; [discriminate | reflexivity]); try reflexivity.
  cbn [quanta].
  replace (Z.of_nat (List.length (a :: b :: c :: d :: l)))
    with (Z.of_nat (List.length l) + 1 * 4) by (cbn [List.length]; lia).
  rewrite Z.mod_add by lia.
  destruct (quanta l) as [tl|]; cbn [option_map].
  - destruct IH as [Hm Hl]. split; [exact Hm|].
    cbn [List.length]. rewrite !Nat2Z.inj_succ, Hl.
    Z.div_mod_to_equations. lia.
  - exact IH.
Qed.

(** X3: [DecodeBase64String] accepts a string exactly when, line breaks
    apart, all its characters are of the URL alphabet and their number is
    not 1 modulo 4; it then gives [n * 6 / 8] bytes for [n] characters. *)
Theorem DecodeBase64String_accepts (s : string) :
  let n := len (payload s) in
  (allIn encodeURL (payload s) = true /\ n mod 4 <> 1 ->
   exists b, DecodeBase64String s = (b, None)
             /\ Z.of_nat (List.length b) = DecodedLen n)
  /\ (allIn encodeURL (payload s) = false \/ n mod 4 = 1 ->
      snd (DecodeBase64String s) = Some (LibError "encoding/base64")).
Proof.
  unfold len, DecodeBase64String, DecodeString, decoded. cbv zeta. split.
  - intros [Hall Hn]. destruct (sextets_some s Hall) as [l [-> Hl]].
    pose proof (quanta_length l) as Hq. rewrite Hl in Hq.
    destruct (quanta l) as [b|]; [|contradiction].
    exists b. split; [reflexivity | apply Hq].
  - intros [Hall|Hn].
    + rewrite (sextets_none s Hall). reflexivity.
    + destruct (allIn encodeURL (payload s)) eqn:Hall.
      * destruct (sextets_some s Hall) as [l [-> Hl]].
        pose proof (quanta_length l) as Hq. rewrite Hl in Hq.
        destruct (quanta l) as [b|]; [|reflexivity].
        destruct Hq as [Hq _]. contradiction.
      * rewrite (sextets_none s Hall). reflexivity.
Qed.

Lemma DecodeBase64String_accepts_witness :
  exists b, DecodeBase64String "dmFsaWRzdHJpbmc" = (b, None)
            /\ Z.of_nat (List.length b) = 11.
Proof.
  apply (proj1 (DecodeBase64String_accepts "dmFsaWRzdHJpbmc")).
  split; [reflexivity | vm_compute; discriminate].
Defined.

Lemma allIn_encode (l : list Z) :
  Forall sextet l ->
  allIn encodeURL (string_of_list_ascii (List.map encodeChar l)) = true.
Proof.
  induction 1 as [|v l Hv _ IH]; [reflexivity|].
  cbn [List.map string_of_list_ascii allIn]. rewrite IH, andb_true_r.
  destruct (encodeChar_spec v Hv) as [Hd _].
  unfold decodeChar in Hd.
  destruct (fmt.indexByte encodeURL (encodeChar v)) eqn:E; [reflexivity|].
  apply (indexFrom_none _ _ 0) in E. congruence.
Qed.

Lemma length_sextetsOf (src : list byte) :
  Z.of_nat (List.length (sextetsOf src)) = EncodedLen (Z.of_nat (List.length src)).
Proof.
  unfold EncodedLen.
  induction src as [| b0 | b0 b1 | b0 b1 b2 rest IH] using list_ind3;
    try reflexivity.
  cbn [sextetsOf List.length]. rewrite !Nat2Z.inj_succ, IH.
  Z.div_mod_to_equations. lia.
Qed.

Lemma length_string_of_list_ascii (l : list ascii) :
  String.length (string_of_list_ascii l) = List.length l.
Proof. induction l as [|c l IH]; simpl; [reflexivity | rewrite IH; reflexivity]. Qed.

Lemma length_EncodeToString (src : list byte) :
  len (EncodeToString src) = EncodedLen (Z.of_nat (List.length src)).
Proof.
  unfold len. rewrite EncodeToString_sextetsOf, length_string_of_list_ascii,
    List.length_map. apply length_sextetsOf.
Qed.

Lemma EncodeToBase64String_inj (b b' : list byte) :
  EncodeToBase64String b = EncodeToBase64String b' -> b = b'.
Proof.
  unfold EncodeToBase64String. intros E.
  pose proof (DecodeString_EncodeToString b) as Hb.
  rewrite E, DecodeString_EncodeToString in Hb. congruence.
Qed.

(** X1: decoding an encoded byte sequence gives the sequence back with no
    error, so two byte sequences with the same encoding are equal. *)
Theorem base64_round_trip (b : list byte) :
  DecodeBase64String (EncodeToBase64String b) = (b, None)
  /\ forall b', EncodeToBase64String b = EncodeToBase64String b' -> b = b'.
Proof.
  assert (R : forall x, DecodeBase64String (EncodeToBase64String x) = (x, None)).
  { intros x. unfold DecodeBase64String, EncodeToBase64String.
    apply DecodeString_EncodeToString. }
  split; [apply R|].
  intros b' E. pose proof (R b) as Hb. rewrite E, R in Hb. congruence.
Qed.

(** X2: the encoding of [n] bytes has [(n * 8 + 5) / 6] characters, all of
    the URL alphabet: there is no padding and no line break. *)
Theorem EncodeToBase64String_shape (b : list byte) :
  len (EncodeToBase64String b) = EncodedLen (Z.of_nat (List.length b))
  /\ allIn encodeURL (EncodeToBase64String b) = true
  /\ payload (EncodeToBase64String b) = EncodeToBase64String b.
Proof.
  unfold EncodeToBase64String.
  split; [apply length_EncodeToString|].
  rewrite EncodeToString_sextetsOf.
  split; [apply allIn_encode, sextetsOf_range|].
  induction (sextetsOf_range b) as [|v l Hv _ IH]; [reflexivity|].
  cbn [List.map string_of_list_ascii payload].
  destruct (encodeChar_spec v Hv) as [_ [Hnl _]].
  rewrite Hnl, IH. reflexivity.
Qed.

Lemma base64_round_trip_witness :
  DecodeBase64String (EncodeToBase64String (list_byte_of_string "salt"))
  = (list_byte_of_string "salt", None).
Proof. exact (proj1 (base64_round_trip (list_byte_of_string "salt"))). Defined.

End Encoding.

(** * Further properties of tokens and keys *)
Module Keys.
Import Go gofman auth Alphabet StringsFacts FmtFacts Base64Facts Digits.
Import TestVectors Credentials Encoding.
Local Open Scope Z_scope.

Lemma GenerateRandomBytes_enough (r : rand.Reader) (n : Z) :
  0 <= n <= Z.of_nat (List.length r) ->
  GenerateRandomBytes r n
  = Return ((firstn (Z.to_nat n) r, None), skipn (Z.to_nat n) r).
Proof.
  intros Hn. unfold GenerateRandomBytes, make.
  destruct (Z.ltb_spec n (-1)); [lia|].
  destruct (Z.ltb_spec n 0); [lia|].
  cbn [bind]. unfold rand.Read. rewrite List.repeat_length.
  destruct (Nat.leb_spec (Z.to_nat n) (List.length r)); [reflexivity|lia].
Qed.

Lemma GenerateRandomBytes_short (r : rand.Reader) (n : Z) :
  Z.of_nat (List.length r) < n ->
  GenerateRandomBytes r n = Return (([], Some (LibError "crypto/rand")), r).
Proof.
  intros Hn. unfold GenerateRandomBytes, make.
  destruct (Z.ltb_spec n (-1)); [lia|].
  destruct (Z.ltb_spec n 0); [lia|].
  cbn [bind]. unfold rand.Read. rewrite List.repeat_length.
  destruct (Nat.leb_spec (Z.to_nat n) (List.length r)); [lia|reflexivity].
Qed.

(** X4: for a length that is not negative, [GenerateRandomBytes] returns
    exactly that many bytes, the next ones of the generator, which it takes
    from it; a generator that cannot deliver them gives its error, no bytes,
    and keeps what it had. *)
Theorem GenerateRandomBytes_delivers (r : rand.Reader) (n : Z) :
  0 <= n ->
  (n <= Z.of_nat (List.length r) ->
   exists b r', GenerateRandomBytes r n = Return ((b, None), r')
                /\ Z.of_nat (List.length b) = n /\ r = (b ++ r')%list)
  /\ (Z.of_nat (List.length r) < n ->
      GenerateRandomBytes r n = Return (([], Some (LibError "crypto/rand")), r)).
Proof.
  intros Hn. split.
  - intros Hr. exists (firstn (Z.to_nat n) r), (skipn (Z.to_nat n) r).
    split; [apply GenerateRandomBytes_enough; lia|].
    split; [|symmetry; apply List.firstn_skipn].
    rewrite List.length_firstn. lia.
  - apply GenerateRandomBytes_short.
Qed.

Lemma GenerateRandomBytes_delivers_witness :
  exists b r', GenerateRandomBytes [x01; x02; x03] 2 = Return ((b, None), r')
               /\ Z.of_nat (List.length b) = 2
               /\ [x01; x02; x03] = (b ++ r')%list.
Proof.
  apply (proj1 (GenerateRandomBytes_delivers [x01; x02; x03] 2 ltac:(lia)));
    simpl; lia.
Defined.

Lemma newEncoded_enough (r : rand.Reader) (n : Z) :
  0 <= n <= Z.of_nat (List.length r) ->
  newEncoded r n
  = Return ((EncodeToBase64String (firstn (Z.to_nat n) r), None),
            skipn (Z.to_nat n) r).
Proof.
  intros Hn. unfold newEncoded.
  rewrite GenerateRandomBytes_enough by exact Hn. reflexivity.
Qed.

Lemma length_firstn_Z (r : rand.Reader) (n : Z) :
  0 <= n <= Z.of_nat (List.length r) ->
  Z.of_nat (List.length (firstn (Z.to_nat n) r)) = n.
Proof. intros Hn. rewrite List.length_firstn. lia. Qed.

(** X5: with enough bytes in the generator, [NewToken], [NewPassword] and
    [NewSalt] return no error and the encoding of the next 32, 8 and 16
    bytes: strings of 43, 11 and 22 characters; the generator loses exactly
    those bytes. *)
Theorem issued_strings (r : rand.Reader) :
  (32 <= Z.of_nat (List.length r) ->
   exists t, NewToken r = Return ((t, None), skipn 32 r)
             /\ t = EncodeToBase64String (firstn 32 r) /\ len t = 43)
  /\ (8 <= Z.of_nat (List.length r) ->
      exists p, NewPassword r = Return ((p, None), skipn 8 r)
                /\ p = EncodeToBase64String (firstn 8 r) /\ len p = 11)
  /\ (16 <= Z.of_nat (List.length r) ->
      exists s, NewSalt r = Return ((s, None), skipn 16 r)
                /\ s = EncodeToBase64String (firstn 16 r) /\ len s = 22).
Proof.
  unfold NewToken, NewPassword, NewSalt.
  repeat split; intros Hr; eexists;
    (split; [apply newEncoded_enough; lia|]);
    (split; [reflexivity|]);
    unfold EncodeToBase64String;
    rewrite length_EncodeToString, length_firstn_Z by lia;
    reflexivity.
Qed.

Lemma issued_strings_witness :
  exists t, NewToken (repeat x07 40) = Return ((t, None), repeat x07 8)
            /\ t = EncodeToBase64String (repeat x07 32) /\ len t = 43.
Proof.
  apply (proj1 (issued_strings (repeat x07 40))). simpl. lia.
Defined.

Section Digest.
Context {D : argon2.Digest}.

Lemma HashPassword_ok (password salt : string) :
  password <> EmptyString -> salt <> EmptyString ->
  HashPassword password salt
  = Return (formatKey argon2.Version ArgonMemory ArgonTime ArgonThreads
              (EncodeToBase64String (list_byte_of_string salt))
              (EncodeToBase64String
                 (argon2.deriveKey (list_byte_of_string password)
                    (list_byte_of_string salt)
                    ArgonTime ArgonMemory ArgonThreads ArgonKeyLen)), None).
Proof.
  intros Hp Hs. unfold HashPassword.
  apply String.eqb_neq in Hp. apply String.eqb_neq in Hs.
  rewrite Hp, Hs. reflexivity.
Qed.

Lemma HashPassword_some_key (password salt key : string) :
  HashPassword password salt = Return (key, None) ->
  password <> EmptyString /\ salt <> EmptyString.
Proof.
  unfold HashPassword.
  destruct (String.eqb_spec password EmptyString); [discriminate|].
  destruct (String.eqb_spec salt EmptyString); [discriminate|].
  auto.
Qed.

(** X6: [HashPassword] refuses an empty password and, the password given,
    an empty salt, with an error of code [EINVALID] and no key; otherwise it
    returns, without error and without panic, a key of six pieces between
    dollar signs: an empty one, the name of the algorithm, the version, the
    three costs, the encoded salt and the encoded digest. *)
Theorem HashPassword_result (password salt : string) :
  (password = EmptyString ->
   HashPassword password salt
   = Return (EmptyString, Some (Error EINVALID "Password required.")))
  /\ (password <> EmptyString -> salt = EmptyString ->
      HashPassword password salt
      = Return (EmptyString, Some (Error EINVALID "Salt required.")))
  /\ (password <> EmptyString -> salt <> EmptyString ->
      exists key,
        HashPassword password salt = Return (key, None)
        /\ strings.Split key "$"
           = [EmptyString; "argon2id"; "v=19"; "m=65536,t=1,p=4";
              EncodeToBase64String (list_byte_of_string salt);
              EncodeToBase64String
                (argon2.deriveKey (list_byte_of_string password)
                   (list_byte_of_string salt) 1 65536 4 32)]).
Proof.
  unfold HashPassword. split; [|split].
  - intros ->. reflexivity.
  - intros Hp ->. apply String.eqb_neq in Hp. rewrite Hp. reflexivity.
  - intros Hp Hs. fold (HashPassword password salt).
    rewrite HashPassword_ok by assumption.
    eexists. split; [reflexivity|].
    rewrite Split_formatKey by (unfold ArgonMemory, ArgonTime, ArgonThreads; lia).
    reflexivity.
Qed.

(** X7: the salt is part of the key: for one password, in fact for any two
    passwords, two different salts that are not empty give two different
    keys, whatever the digest. *)
Theorem HashPassword_salts_differ (password1 password2 salt1 salt2 : string)
    (key1 key2 : string) :
  salt1 <> salt2 ->
  HashPassword password1 salt1 = Return (key1, None) ->
  HashPassword password2 salt2 = Return (key2, None) ->
  key1 <> key2.
Proof.
  intros Hne H1 H2 E. subst key2.
  destruct (HashPassword_some_key _ _ _ H1) as [Hp1 Hs1].
  destruct (HashPassword_some_key _ _ _ H2) as [Hp2 Hs2].
  rewrite HashPassword_ok in H1, H2 by assumption.
  injection H1 as H1. injection H2 as H2.
  rewrite <- H2 in H1. apply (f_equal (fun k => strings.Split k "$")) in H1.
  rewrite !Split_formatKey in H1
    by (unfold ArgonMemory, ArgonTime, ArgonThreads; lia).
  injection H1 as H1 _.
  apply EncodeToBase64String_inj in H1.
  apply Hne.
  rewrite <- (string_of_list_byte_of_string salt1),
    <- (string_of_list_byte_of_string salt2), H1.
  reflexivity.
Qed.

End Digest.

Lemma HashPassword_salts_differ_witness :
  exists key1 key2,
    @HashPassword testDigest "password" "salt" = Return (key1, None)
    /\ @HashPassword testDigest "password" "salt1" = Return (key2, None)
    /\ key1 <> key2.
Proof.
  eexists. eexists. split; [reflexivity|]. split; [reflexivity|].
  apply (HashPassword_salts_differ (D := testDigest)
           "password" "password" "salt" "salt1");
    [discriminate | reflexivity | reflexivity].
Defined.

Lemma HashPassword_result_witness :
  @HashPassword testDigest "hunter2" EmptyString
  = Return (EmptyString, Some (Error EINVALID "Salt required.")).
Proof.
  apply (proj1 (proj2 (HashPassword_result (D := testDigest) "hunter2" EmptyString)));
    [discriminate | reflexivity].
Defined.

Section Verification.
Context {D : argon2.Digest}.

(** Verification of a key, given its six pieces. *)
Lemma VerifyPassword_pieces (password key s0 s1 : string)
    (memory time threads : Z) (salt hash : list byte) :
  password <> EmptyString -> key <> EmptyString ->
  strings.Split key "$"
  = [s0; s1; "v=19"; parameters memory time threads;
     EncodeToBase64String salt; EncodeToBase64String hash] ->
  0 <= memory < 2 ^ 32 -> 0 <= time < 2 ^ 32 -> 0 <= threads < 2 ^ 8 ->
  VerifyPassword password key
  = (control <- argon2.IDKey (list_byte_of_string password) salt
                  time memory threads
                  (Z.of_nat (List.length hash) mod 2 ^ 32) ;;;
     if subtle.bytes_eqb hash control then Return None
     else Return (Some (NewError EINVALID "Hash not equal password."))).
Proof.
  intros Hpw Hkey Hsplit Hm Ht Hp. unfold VerifyPassword.
  apply String.eqb_neq in Hpw. apply String.eqb_neq in Hkey.
  rewrite Hpw, Hkey, Hsplit.
  cbn [List.length Nat.eqb negb nth].
  replace (fmt.Sscanf "v=19" "v=%d" [fmt.IntPtr]) with (Some [argon2.Version])
    by reflexivity.
  rewrite Z.eqb_refl. cbn [negb].
  rewrite Sscanf_parameters by assumption.
  rewrite !DecodeBase64String_Encode.
  cbn [Time Memory Threads KeyLen].
  destruct (argon2.IDKey (list_byte_of_string password) salt time memory
              threads (Z.of_nat (List.length hash) mod 2 ^ 32))
    as [control|msg]; [|reflexivity].
  cbn [bind]. unfold subtle.ConstantTimeCompare.
  destruct (subtle.bytes_eqb hash control); reflexivity.
Qed.

Lemma append_nonempty (a : string) (c : ascii) (b : string) :
  (a ++ String c b)%string <> EmptyString.
Proof. destruct a; discriminate. Qed.

(** X8: [VerifyPassword] never reads the first two pieces of a key.  A key
    with any text before its first dollar sign and any name in place of
    "argon2id" is verified exactly as the key [HashPassword] would have
    made of the same version, costs, salt and hash. *)
Theorem VerifyPassword_ignores_algorithm (password junk name : string)
    (memory time threads : Z) (salt hash : list byte) :
  password <> EmptyString ->
  fmt.indexByte junk "$" = false -> fmt.indexByte name "$" = false ->
  0 <= memory < 2 ^ 32 -> 0 <= time < 2 ^ 32 -> 0 <= threads < 2 ^ 8 ->
  VerifyPassword password
    (junk ++ String "$" (name ++ String "$" ("v=19" ++ String "$"
       (parameters memory time threads ++ String "$"
          (EncodeToBase64String salt ++ String "$"
             (EncodeToBase64String hash))))))
  = VerifyPassword password
      (formatKey argon2.Version memory time threads
         (EncodeToBase64String salt) (EncodeToBase64String hash)).
Proof.
  intros Hpw Hj Hn Hm Ht Hp.
  rewrite VerifyPassword_formatKey by assumption.
  apply (VerifyPassword_pieces password _ junk name); try assumption.
  - apply append_nonempty.
  - rewrite Split_app by exact Hj.
    rewrite Split_app by exact Hn.
    rewrite Split_app by reflexivity.
    rewrite Split_app by (apply parameters_no_dollar; lia).
    rewrite Split_app by apply EncodeToString_no_dollar.
    rewrite Split_one by apply EncodeToString_no_dollar.
    reflexivity.
Qed.

(** X9: a key of the right shape whose time cost is 0, or whose
    parallelism is 0, makes [VerifyPassword] panic in the digest instead of
    returning an error. *)
Theorem VerifyPassword_panics_on_zero_cost (password : string)
    (memory time threads : Z) (salt hash : list byte) :
  password <> EmptyString ->
  0 <= memory < 2 ^ 32 -> 0 <= time < 2 ^ 32 -> 0 <= threads < 2 ^ 8 ->
  (time = 0 ->
   VerifyPassword password
     (formatKey argon2.Version memory time threads
        (EncodeToBase64String salt) (EncodeToBase64String hash))
   = Panic "argon2: number of rounds too small")
  /\ (1 <= time -> threads = 0 ->
      VerifyPassword password
        (formatKey argon2.Version memory time threads
           (EncodeToBase64String salt) (EncodeToBase64String hash))
      = Panic "argon2: parallelism degree too low").
Proof.
  intros Hpw Hm Ht Hp.
  rewrite VerifyPassword_formatKey by assumption.
  unfold argon2.IDKey. split.
  - intros ->. reflexivity.
  - intros Ht1 ->. destruct (Z.ltb_spec time 1); [lia|]. reflexivity.
Qed.

Lemma DecodeBase64String_error (s : string) (b : list byte) (e : error) :
  DecodeBase64String s = (b, Some e) -> e = LibError "encoding/base64".
Proof.
  unfold DecodeBase64String, base64.DecodeString.
  destruct (base64.decoded s); congruence.
Qed.

(** X10: the errors [VerifyPassword] can return are seven: five of the
    package, all of code [EINVALID], and the errors of [fmt.Sscanf] and of
    the base64 decoder, which are handed on as they are and count as
    [EINTERNAL]. *)
Theorem VerifyPassword_errors (password key : string) (e : error) :
  VerifyPassword password key = Return (Some e) ->
  In e [Error EINVALID "Password required.";
        Error EINVALID "Argon2 key required.";
        Error EINVALID "Decoded key wrong length.";
        Error EINVALID "Argon version mismatch.";
        Error EINVALID "Hash not equal password.";
        LibError "fmt"; LibError "encoding/base64"]
  /\ (ErrorCode (Some e) = EINTERNAL <-> exists pkg, e = LibError pkg).
Proof.
  intros H.
  assert (Hin : In e [Error EINVALID "Password required.";
        Error EINVALID "Argon2 key required.";
        Error EINVALID "Decoded key wrong length.";
        Error EINVALID "Argon version mismatch.";
        Error EINVALID "Hash not equal password.";
        LibError "fmt"; LibError "encoding/base64"]).
  { unfold VerifyPassword, subtle.ConstantTimeCompare, bind, NewError in H.
    repeat match type of H with
           | context [match ?x with _ => _ end] => destruct x eqn:?
           end;
      try discriminate H; injection H as <-;
      repeat match goal with
             | E : DecodeBase64String _ = (_, Some _) |- _ =>
                 apply DecodeBase64String_error in E; subst
             end;
      simpl; auto 10. }
  split; [exact Hin|].
  simpl in Hin.
  repeat (destruct Hin as [<-|Hin]; [split; [discriminate | intros [? ?]; discriminate]|]);
    destruct Hin as [<-|[<-|[]]]; (split; [intros _; eexists; reflexivity | reflexivity]).
Qed.

End Verification.

Lemma VerifyPassword_ignores_algorithm_witness :
  @VerifyPassword testDigest "password"
    "junk$argon2i$v=19$m=65536,t=1,p=4$c2FsdA$OWwmnKFemKE2ILjM60j1so1oRXDFJYqvOiYlZTByvuU"
  = Return None.
Proof.
  refine (eq_trans
            (VerifyPassword_ignores_algorithm (D := testDigest) "password"
               "junk" "argon2i" 65536 1 4 (list_byte_of_string "salt")
               testVectorDigest _ _ _ _ _ _) _);
    first [ discriminate | reflexivity | lia ].
Defined.

Lemma VerifyPassword_panics_on_zero_cost_witness :
  @VerifyPassword testDigest "password"
    "$argon2id$v=19$m=65536,t=0,p=4$c2FsdA$OWwmnKFemKE2ILjM60j1so1oRXDFJYqvOiYlZTByvuU"
  = Panic "argon2: number of rounds too small".
Proof.
  refine (proj1 (VerifyPassword_panics_on_zero_cost (D := testDigest)
                   "password" 65536 0 4 (list_byte_of_string "salt")
                   testVectorDigest _ _ _ _) _);
    first [ discriminate | reflexivity | lia ].
Defined.

Lemma VerifyPassword_errors_witness :
  In (LibError "fmt")
    [Error EINVALID "Password required.";
     Error EINVALID "Argon2 key required.";
     Error EINVALID "Decoded key wrong length.";
     Error EINVALID "Argon version mismatch.";
     Error EINVALID "Hash not equal password.";
     LibError "fmt"; LibError "encoding/base64"].
Proof.
  exact (proj1 (VerifyPassword_errors (D := testDigest) "password"
                  "$argon2id$v=x$m=65536,t=1,p=4$c2FsdA$c2FsdA"
                  (LibError "fmt") eq_refl)).
Defined.

End Keys.

(** * Validation of the records *)
Module Validation.
Import Go gofman validate auth.
Local Open Scope Z_scope.

Lemma eqb_empty_len (s : string) :
  String.eqb s EmptyString = true <-> len s = 0.
Proof.
  unfold len. destruct s; simpl; split; try reflexivity; try discriminate;
    lia.
Qed.

Ltac by_cases :=
  repeat match goal with
         | |- context [String.eqb ?s EmptyString] =>
             let E := fresh "E" in
             destruct (String.eqb s EmptyString) eqn:E;
             [apply eqb_empty_len in E |
              assert (len s <> 0) by (rewrite <- eqb_empty_len; congruence);
              clear E]
         | |- context [(?a <? ?b)%Z] => destruct (Z.ltb_spec a b)
         end.

Lemma len_nonneg (s : string) : 0 <= len s.
Proof. unfold len. lia. Qed.

(** X11: [User.Validate] accepts a user exactly when its name has 1 to 35
    bytes, 35 included, and its password at least 7; every refusal is an
    error of code [EINVALID], and the name is judged before the password. *)
Theorem User_Validate_accepts (u : User) :
  exists r, User_Validate (Some u) = Return r
    /\ (r = None <->
        1 <= len (User_Username u) <= MaxUsernameLen
        /\ MinPasswordLen <= len (User_Password u))
    /\ (r <> None -> ErrorCode r = EINVALID)
    /\ (len (User_Username u) = 0 ->
        r = Some (Error EINVALID "Username required.")).
Proof.
  unfold User_Validate. cbn [deref bind].
  pose proof (len_nonneg (User_Username u)).
  pose proof (len_nonneg (User_Password u)).
  unfold MaxUsernameLen, MinPasswordLen in *.
  by_cases; eexists; (split; [reflexivity|]);
    repeat split; try discriminate; try reflexivity; try lia;
    try (intros; exfalso; lia); try (intros [? ?]; exfalso; lia);
    try congruence.
Qed.

(** X12: [Session.Validate] accepts a session exactly when its user id is
    not empty and its token has at least 32 bytes; every refusal is an error
    of code [EINVALID].  The id and the creation time play no part. *)
Theorem Session_Validate_accepts (s : Session) :
  exists r, Session_Validate (Some s) = Return r
    /\ (r = None <->
        Session_UserID s <> EmptyString /\ MinTokenLen <= len (Session_Token s))
    /\ (r <> None -> ErrorCode r = EINVALID).
Proof.
  unfold Session_Validate. cbn [deref bind].
  pose proof (len_nonneg (Session_Token s)).
  unfold MinTokenLen in *.
  destruct (String.eqb_spec (Session_UserID s) EmptyString) as [E|E].
  - eexists. split; [reflexivity|]. repeat split; try discriminate;
      try reflexivity. intros [? _]. contradiction.
  - by_cases; eexists; (split; [reflexivity|]);
      repeat split; try discriminate; try reflexivity; try lia;
      try assumption; try (intros [? ?]; exfalso; lia); try congruence.
Qed.

(** X13: [Tag.Validate] and [Actor.Validate] accept exactly when the owner
    id is not empty and the name has 1 to 255 bytes; [File.Validate] accepts
    exactly when owner id, name, type, path and checksum are all not empty.
    Nothing else of the record is looked at. *)
Theorem resource_Validate_accepts (t : Tag) (a : Actor) (f : File) :
  (Tag_Validate (Some t) = Return None <->
   Tag_UserID t <> EmptyString /\ 1 <= len (Tag_Name t) <= MaxTagNameLen)
  /\ (Actor_Validate (Some a) = Return None <->
      Actor_UserID a <> EmptyString
      /\ 1 <= len (Actor_Name a) <= MaxActorNameLen)
  /\ (File_Validate (Some f) = Return None <->
      File_UserID f <> EmptyString /\ File_Name f <> EmptyString
      /\ File_Type f <> EmptyString /\ File_Path f <> EmptyString
      /\ File_Checksum f <> EmptyString).
Proof.
  unfold Tag_Validate, Actor_Validate, File_Validate. cbn [deref bind].
  pose proof (len_nonneg (Tag_Name t)).
  pose proof (len_nonneg (Actor_Name a)).
  unfold MaxTagNameLen, MaxActorNameLen in *.
  split; [|split].
  - destruct (String.eqb_spec (Tag_UserID t) EmptyString) as [E|E];
      [split; [discriminate | intros [? _]; contradiction]|].
    by_cases; split; try discriminate; try (intros [_ ?]; exfalso; lia);
      intros _; (split; [assumption | lia]) || reflexivity.
  - destruct (String.eqb_spec (Actor_UserID a) EmptyString) as [E|E];
      [split; [discriminate | intros [? _]; contradiction]|].
    by_cases; split; try discriminate; try (intros [_ ?]; exfalso; lia);
      intros _; (split; [assumption | lia]) || reflexivity.
  - repeat match goal with
           | |- context [String.eqb ?s EmptyString] =>
               destruct (String.eqb_spec s EmptyString)
           end;
      split; try discriminate; try tauto; try reflexivity.
Qed.

Lemma User_Validate_accepts_witness :
  User_Validate
    (Some (mkUser "u1" "a-name-of-exactly-35-bytes-in-total" "secret7"
             false false 0 0 0))
  = Return None.
Proof.
  destruct (User_Validate_accepts
              (mkUser "u1" "a-name-of-exactly-35-bytes-in-total" "secret7"
                 false false 0 0 0)) as [r [E [Hiff _]]].
  rewrite E. f_equal. apply Hiff. vm_compute. repeat split; discriminate.
Defined.

Lemma Session_Validate_accepts_witness :
  Session_Validate
    (Some (mkSession "" "alice" "0123456789abcdef0123456789abcdef" 0))
  = Return None.
Proof.
  destruct (Session_Validate_accepts
              (mkSession "" "alice" "0123456789abcdef0123456789abcdef" 0))
    as [r [E [Hiff _]]].
  rewrite E. f_equal. apply Hiff. split; [discriminate|].
  vm_compute. discriminate.
Defined.

Lemma resource_Validate_accepts_witness :
  Tag_Validate (Some (mkTag "" "alice" "sea" 0 0 0)) = Return None.
Proof.
  apply (proj1 (resource_Validate_accepts (mkTag "" "alice" "sea" 0 0 0)
                  PolicyData.demoActor PolicyData.demoFile)).
  split; [discriminate|]. vm_compute. split; discriminate.
Defined.

End Validation.

(** * Further properties of the authorization policy *)
Module PolicyMore.
Import Go gofman PolicyData.

(** X14: [CanFindUser] never takes its first branch: the filter's id is
    compared by address with a local variable.  So it permits exactly the
    admins, as [CanCreateUser] does, and a user that is no admin may not
    look up even itself. *)
Theorem CanFindUser_admin_only (h : store) (ctx : Context) (filter : UserFilter) :
  valid_ptr h (UserFilter_ID filter) ->
  CanFindUser h ctx filter = CanCreateUser ctx
  /\ (CanFindUser h ctx filter = true <->
      exists u, UserFromContext ctx = Some u /\ User_IsAdmin u = true).
Proof.
  intros Hv. unfold CanFindUser, CanCreateUser.
  pose proof (Policy.fresh_ptr_neq h _ (UserIDFromContext ctx) Hv) as E.
  simpl in *. rewrite E. split; [reflexivity|].
  destruct (UserFromContext ctx) as [u|]; split.
  - intros Ha. exists u. auto.
  - intros [u' [Hu Ha]]. congruence.
  - discriminate.
  - intros [u' [Hu _]]. discriminate.
Qed.

Lemma CanFindUser_admin_only_witness :
  CanFindUser ["alice"] (asUser alice) (mkUserFilter (Some 0) None 0 1) = false.
Proof.
  refine (eq_trans (proj1 (CanFindUser_admin_only ["alice"] (asUser alice)
                             (mkUserFilter (Some 0) None 0 1) _)) _);
    [simpl; lia | reflexivity].
Defined.

Lemma CanUpdateTag_true_inv (ctx : Context) (tag : Tag) :
  CanUpdateTag ctx (Some tag) = Return true ->
  exists u, UserFromContext ctx = Some u /\ User_IsDemo u = false
            /\ User_ID u = Tag_UserID tag.
Proof.
  unfold CanUpdateTag, UserIDFromContext.
  destruct (UserFromContext ctx) as [u|]; simpl; [|discriminate].
  destruct (User_IsDemo u) eqn:Hd; simpl; [discriminate|].
  destruct (String.eqb (User_ID u) EmptyString); simpl; [discriminate|].
  intros E. injection E as E. apply String.eqb_eq in E.
  exists u. auto.
Qed.

(** X15: the mutate predicates permit the owner: a user in the context
    that is no demo user and has an id that is not empty is permitted on
    every file, tag and actor whose owner id is its id.  They decide without
    panic on any resource that is not nil. *)
Theorem CanUpdate_permits_owner (ctx : Context) (u : User)
    (file : File) (tag : Tag) (actor : Actor) :
  UserFromContext ctx = Some u -> User_IsDemo u = false ->
  User_ID u <> EmptyString ->
  (File_UserID file = User_ID u -> CanUpdateFile ctx (Some file) = Return true)
  /\ (Tag_UserID tag = User_ID u -> CanUpdateTag ctx (Some tag) = Return true)
  /\ (Actor_UserID actor = User_ID u ->
      CanUpdateActor ctx (Some actor) = Return true)
  /\ (File_UserID file <> User_ID u ->
      CanUpdateFile ctx (Some file) = Return false)
  /\ (Tag_UserID tag <> User_ID u -> CanUpdateTag ctx (Some tag) = Return false)
  /\ (Actor_UserID actor <> User_ID u ->
      CanUpdateActor ctx (Some actor) = Return false).
Proof.
  intros Hu Hd Hid.
  unfold CanUpdateFile, CanUpdateTag, CanUpdateActor, UserIDFromContext.
  rewrite Hu. simpl. rewrite Hd.
  apply String.eqb_neq in Hid. rewrite Hid. simpl.
  repeat split; intros E;
    first [ rewrite E, String.eqb_refl; reflexivity
          | apply String.eqb_neq in E; rewrite E; reflexivity ].
Qed.

Lemma CanUpdate_permits_owner_witness :
  CanUpdateTag (asUser alice) (Some (mkTag "t2" "alice" "sea" 0 0 0))
  = Return true.
Proof.
  apply (proj1 (proj2 (CanUpdate_permits_owner (asUser alice) alice
                         demoFile (mkTag "t2" "alice" "sea" 0 0 0) demoActor
                         eq_refl eq_refl ltac:(discriminate)))).
  reflexivity.
Defined.

(** X16: a context without a user, or with a user whose id is empty, is
    denied by the mutate predicates without the resource being read: even a
    nil resource gives [false] and no panic.  With a user that may act, a
    nil resource is dereferenced. *)
Theorem CanUpdate_without_identity (ctx : Context) :
  (UserIDFromContext ctx = EmptyString ->
   forall (file : option File) (tag : option Tag) (actor : option Actor),
     CanUpdateFile ctx file = Return false
     /\ CanUpdateTag ctx tag = Return false
     /\ CanUpdateActor ctx actor = Return false)
  /\ (forall u, UserFromContext ctx = Some u -> User_IsDemo u = false ->
        User_ID u <> EmptyString ->
        CanUpdateFile ctx None
        = Panic "invalid memory address or nil pointer dereference").
Proof.
  unfold CanUpdateFile, CanUpdateTag, CanUpdateActor. split.
  - intros E file tag actor. rewrite E.
    destruct (isDemo (UserFromContext ctx)); auto.
  - intros u Hu Hd Hid. unfold UserIDFromContext. rewrite Hu. simpl.
    rewrite Hd. apply String.eqb_neq in Hid. rewrite Hid. reflexivity.
Qed.

Lemma CanUpdate_without_identity_witness :
  CanUpdateFile [] None = Return false.
Proof.
  exact (proj1 (proj1 (CanUpdate_without_identity []) eq_refl None None None)).
Defined.

Lemma CanDeleteSession_true_inv (ctx : Context) (session : Session) :
  CanDeleteSession ctx (Some session) = Return true ->
  exists u, UserFromContext ctx = Some u /\ User_ID u <> EmptyString
            /\ Session_UserID session = User_ID u.
Proof.
  unfold CanDeleteSession, UserIDFromContext.
  destruct (UserFromContext ctx) as [u|]; simpl; [|discriminate].
  destruct (String.eqb_spec (User_ID u) EmptyString) as [E|E]; simpl;
    [discriminate|].
  destruct (String.eqb_spec (Session_UserID session) (User_ID u)) as [E'|E'];
    [|discriminate].
  intros _. exists u. auto.
Qed.

(** X17: [CanDeleteSession] permits exactly when the context has a user
    whose id is not empty and is the session's user id.  The demo flag and
    the admin flag play no part: a demo user may delete its sessions and an
    admin may not delete those of another user. *)
Theorem CanDeleteSession_owner_only (ctx : Context) (session : Session) :
  (CanDeleteSession ctx (Some session) = Return true <->
   exists u, UserFromContext ctx = Some u /\ User_ID u <> EmptyString
             /\ Session_UserID session = User_ID u)
  /\ (CanDeleteSession ctx (Some session) <> Return true ->
      CanDeleteSession ctx (Some session) = Return false).
Proof.
  unfold CanDeleteSession, UserIDFromContext.
  destruct (UserFromContext ctx) as [u|]; simpl.
  - destruct (String.eqb_spec (User_ID u) EmptyString) as [E|E]; simpl.
    + split; [|reflexivity]. split; [discriminate|].
      intros [u' [Hu [Hne _]]]. congruence.
    + destruct (String.eqb_spec (Session_UserID session) (User_ID u)) as [E'|E'].
      * split; [|congruence]. split; [|reflexivity].
        intros _. exists u. auto.
      * split; [|reflexivity]. split; [discriminate|].
        intros [u' [Hu [_ Hs]]]. congruence.
  - split; [|reflexivity]. split; [discriminate|].
    intros [u' [Hu _]]. discriminate.
Qed.

Lemma CanDeleteSession_owner_only_witness :
  CanDeleteSession (asUser demo) (Some (mkSession "s9" "demo" "t" 0))
  = Return true.
Proof.
  apply (proj1 (CanDeleteSession_owner_only (asUser demo)
                  (mkSession "s9" "demo" "t" 0))).
  exists demo. repeat split. discriminate.
Defined.

End PolicyMore.

(** * The request context *)
Module ContextFacts.
Import Go gofman.

Lemma Value_later (later ctx : Context) (k : contextKey) :
  (forall k' v, In (k', v) later -> contextKey_eqb k' k = false) ->
  Value (later ++ ctx)%list k = Value ctx k.
Proof.
  induction later as [|[k' v] later IH]; intros H; [reflexivity|].
  simpl. rewrite (H k' v) by (left; reflexivity).
  apply IH. intros k'' v' Hin. apply (H k'' v'). right. exact Hin.
Qed.

(** X18: a value put into a context is what its getter returns, a nil
    pointer included, however many values are put under the other keys
    afterwards; and the last value put under a key hides the earlier
    ones. *)
Theorem context_values (later ctx : Context) (id : string)
    (user user' : option User) (session : option Session) :
  ((forall k v, In (k, v) later -> k <> userContextKey) ->
   UserFromContext (later ++ NewContextWithUser ctx user)%list = user)
  /\ ((forall k v, In (k, v) later -> k <> sessionContextKey) ->
      SessionFromContext (later ++ NewContextWithSession ctx session)%list
      = session)
  /\ ((forall k v, In (k, v) later -> k <> requestIDContextKey) ->
      RequestIDFromContext (later ++ NewContextWithRequestID ctx id)%list = id)
  /\ UserFromContext (NewContextWithUser (NewContextWithUser ctx user) user')
     = user'.
Proof.
  unfold UserFromContext, SessionFromContext, RequestIDFromContext.
  repeat split; try reflexivity; intros H; rewrite Value_later;
    try reflexivity;
    intros k v Hin; specialize (H k v Hin); destruct k; try reflexivity;
    contradiction.
Qed.

Lemma context_values_witness :
  UserFromContext
    (NewContextWithRequestID
       (NewContextWithSession (NewContextWithUser [] (Some PolicyData.bob))
          None) "req-1")
  = Some PolicyData.bob.
Proof.
  apply (proj1 (context_values
                  [(requestIDContextKey, StringValue "req-1");
                   (sessionContextKey, SessionValue None)]
                  [] "" (Some PolicyData.bob) None None)).
  intros k v [E|[E|[]]]; injection E as <- _; discriminate.
Defined.

End ContextFacts.

(** * The two middlewares together *)
Module Gate.
Import Go gofman http Resolution Authenticator.

Section Protected.
Context {W : Type} `{ResponseWriter W} `{SessionService} `{UserService}.

(** X19: on a protected route the router runs [authenticate] around
    [requireAuth].  For a request whose context has no user yet: if it stays
    anonymous it is redirected to /login with status 302 and the handler is
    not run; if it resolves to a session and a user whose ids are not empty
    the handler runs on the request with both in its context; if one of the
    two ids is empty it is redirected all the same. *)
Theorem protected_route (next : Handler) (w : W) (r : Request) :
  UserFromContext (Ctx r) = None ->
  (anonymous r ->
   authenticate (requireAuth next) w r = Redirect w r "/login" 302%Z)
  /\ (forall session user, resolved r session user ->
        User_ID user <> EmptyString -> Session_ID session <> EmptyString ->
        authenticate (requireAuth next) w r
        = next w (identified r session user))
  /\ (forall session user, resolved r session user ->
        User_ID user = EmptyString \/ Session_ID session = EmptyString ->
        authenticate (requireAuth next) w r
        = Redirect w (identified r session user) "/login" 302%Z).
Proof.
  intros Hfresh. split; [|split].
  - intros Ha. rewrite authenticate_anonymous by exact Ha.
    unfold requireAuth, UserIDFromContext. rewrite Hfresh. reflexivity.
  - intros session user Hr Hu Hs.
    rewrite (authenticate_resolved _ _ _ session user Hr).
    unfold requireAuth, identified. cbn.
    apply String.eqb_neq in Hu. apply String.eqb_neq in Hs.
    unfold UserIDFromContext. cbn. rewrite Hu, Hs. reflexivity.
  - intros session user Hr Hempty.
    rewrite (authenticate_resolved _ _ _ session user Hr).
    unfold requireAuth, identified, UserIDFromContext. cbn.
    destruct (String.eqb_spec (User_ID user) EmptyString) as [E|E];
      [reflexivity|].
    destruct Hempty as [E'|E']; [contradiction|].
    rewrite E'. reflexivity.
Qed.

End Protected.

Lemma protected_route_witness :
  authenticate (requireAuth serve) [] wrongToken = [Redirected "/login" 302%Z].
Proof.
  refine (eq_trans (proj1 (protected_route serve [] wrongToken eq_refl) _) _);
    [|reflexivity].
  apply (no_session wrongToken "s1" "guess"); [reflexivity|reflexivity|].
  right. discriminate.
Defined.

End Gate.

(** * The store: sessions, users and tags *)
Module Store.
Import Go gofman validate services sqlite PolicyData StoreData.
Local Open Scope Z_scope.

Lemma load_alloc (h : store) (v : string) :
  load (h ++ [v])%list (Some (List.length h)) = Return v.
Proof.
  unfold load. rewrite List.nth_error_app2 by lia.
  rewrite Nat.sub_diag. reflexivity.
Qed.

Lemma load_alloc_older (h : store) (v w : string) :
  load ((h ++ [v]) ++ [w])%list (Some (List.length h)) = Return v.
Proof.
  unfold load.
  rewrite List.nth_error_app1 by (rewrite List.length_app; simpl; lia).
  rewrite List.nth_error_app2 by lia. rewrite Nat.sub_diag. reflexivity.
Qed.

Lemma CanFindTag_false (h : store) (ctx : Context) (filter : TagFilter) :
  valid_ptr h (TagFilter_UserID filter) -> CanFindTag h ctx filter = false.
Proof.
  intros Hv. unfold CanFindTag.
  pose proof (Policy.fresh_ptr_neq h _ (UserIDFromContext ctx) Hv) as E.
  simpl in *. rewrite E. apply andb_false_r.
Qed.

Lemma CanFindUser_admin (h : store) (ctx : Context) (filter : UserFilter) :
  valid_ptr h (UserFilter_ID filter) ->
  CanFindUser h ctx filter = CanCreateUser ctx.
Proof.
  intros Hv. unfold CanFindUser, CanCreateUser.
  pose proof (Policy.fresh_ptr_neq h _ (UserIDFromContext ctx) Hv) as E.
  simpl in *. rewrite E. reflexivity.
Qed.

Section Transaction.
Context {tx : Tx}.

Lemma findTags_unauthorized (h : store) (ctx : Context) (filter : TagFilter) :
  valid_ptr h (TagFilter_UserID filter) ->
  findTags h ctx filter = Return ([], 0, Some unauthorizedFilter).
Proof.
  intros Hv. unfold findTags. rewrite CanFindTag_false by exact Hv.
  reflexivity.
Qed.

Lemma findTagByID_unauthorized (h : store) (ctx : Context) (id : string) :
  findTagByID h ctx id = Return (None, Some unauthorizedFilter).
Proof.
  unfold findTagByID. cbn [alloc].
  rewrite findTags_unauthorized by exact I. reflexivity.
Qed.

(** X20: no tag is ever found.  [findTags] refuses every filter, whoever
    asks, because [CanFindTag] permits none; so [findTagByID], [updateTag]
    and [removeTag] fail with the error of code [EUNAUTHORIZED] "You are not
    allowed to search using this filter." for every context and id, and
    execute no statement. *)
Theorem tags_never_found (h : store) (ctx : Context) (id : string)
    (update : TagUpdate) (filter : TagFilter) :
  valid_ptr h (TagFilter_UserID filter) ->
  findTags h ctx filter = Return ([], 0, Some unauthorizedFilter)
  /\ findTagByID h ctx id = Return (None, Some unauthorizedFilter)
  /\ updateTag h ctx id update = Return ((None, Some unauthorizedFilter), [])
  /\ removeTag h ctx id = Return (Some unauthorizedFilter, []).
Proof.
  intros Hv. split; [apply findTags_unauthorized, Hv|].
  split; [apply findTagByID_unauthorized|].
  unfold updateTag, removeTag. rewrite findTagByID_unauthorized.
  split; reflexivity.
Qed.

Lemma findUserByID_unauthorized (h : store) (ctx : Context) (id : string) :
  CanCreateUser ctx = false ->
  findUserByID h ctx id = Return (None, Some unauthorizedFilter).
Proof.
  intros Hc. unfold findUserByID, findUsers. cbn [alloc].
  rewrite CanFindUser_admin by (simpl; rewrite List.length_app; simpl; lia).
  rewrite Hc. reflexivity.
Qed.

Lemma collect_Forall {C A : Type} (P : A -> Prop) (make : C -> A)
    (count : C -> Z) (items : list (scanned C)) (acc records : list A)
    (n m : Z) :
  (forall c, P (make c)) -> Forall P acc ->
  collect make count items acc n = inl (records, m) -> Forall P records.
Proof.
  intros Hmake. revert acc n.
  induction items as [|[c|e] rest IH]; intros acc n Hacc; simpl.
  - intros E. injection E as <- _. exact Hacc.
  - apply IH. apply Forall_app. split; [exact Hacc|]. repeat constructor.
    apply Hmake.
  - discriminate.
Qed.

Lemma found_Forall {C A : Type} (P : A -> Prop) (make : C -> A)
    (count : C -> Z) (answer : Rows C * option error) (records : list A)
    (n : Z) (err : option error) :
  (forall c, P (make c)) ->
  found make count answer = (records, n, err) -> Forall P records.
Proof.
  intros Hmake. unfold found. destruct answer as [rows [e|]].
  - intros E. injection E as <- _ _. constructor.
  - destruct (collect make count (Rows_items rows) [] 0) as [[rs m]|e] eqn:Ec.
    + destruct (Rows_Err rows).
      * intros E. injection E as <- _ _. constructor.
      * intros E. injection E as <- _ _.
        exact (collect_Forall P make count (Rows_items rows) [] rs 0 m Hmake
                 (Forall_nil P) Ec).
    + intros E. injection E as <- _ _. constructor.
Qed.

(** X21: no user that [findUsers] returns is a demo user, whatever the
    rows of the query: the demo flag is no column of the query and [Scan]
    leaves it unset. *)
Theorem findUsers_never_demo (h : store) (ctx : Context) (filter : UserFilter)
    (users : list User) (n : Z) (err : option error) :
  findUsers h ctx filter = Return (users, n, err) ->
  Forall (fun u => User_IsDemo u = false) users.
Proof.
  unfold findUsers. destruct (CanFindUser h ctx filter); cbn [negb].
  - destruct (condition h (UserFilter_ID filter) "id = ?" (["1 = 1"], []))
      as [wa|msg]; cbn [bind]; [|discriminate].
    destruct (condition h (UserFilter_Username filter) "username = ?" wa)
      as [wa'|msg]; cbn [bind]; [|discriminate].
    intros E. injection E as E.
    apply (found_Forall _ userOf uc_count _ _ _ _ (fun c => eq_refl) E).
  - intros E. injection E as <- _ _. constructor.
Qed.

(** X22: [deleteSession] executes a statement only for the owner: if it
    has executed anything, that is the one DELETE with the id as its
    argument, the context has a user whose id is not empty, and the session
    found under the id has that user id.  In particular nothing is executed
    for a context without a user. *)
Theorem deleteSession_owner_only (h : store) (ctx : Context) (id : string)
    (err : option error) (log : list statement) :
  deleteSession h ctx id = Return (err, log) ->
  log <> [] ->
  log = [deleteStatement id]
  /\ err = ExecContext ctx (deleteStatement id)
  /\ exists u s,
       UserFromContext ctx = Some u /\ User_ID u <> EmptyString
       /\ findSessionByID h ctx id = Return (Some s, None)
       /\ Session_UserID s = User_ID u.
Proof.
  unfold deleteSession.
  destruct (findSessionByID h ctx id) as [[session [e|]]|msg]; cbn [bind];
    [intros E; injection E as _ <-; congruence | | discriminate].
  destruct session as [s|].
  - destruct (CanDeleteSession ctx (Some s)) as [[|]|msg] eqn:Ecan;
      cbn [bind negb].
    + intros E Hlog. injection E as <- <-.
      split; [reflexivity|]. split; [reflexivity|].
      destruct (PolicyMore.CanDeleteSession_true_inv ctx s Ecan)
        as [u [Hu [Hid Hs]]].
      exists u, s. auto.
    + intros E. injection E as _ <-. congruence.
    + discriminate.
  - unfold CanDeleteSession.
    destruct (negb (String.eqb (UserIDFromContext ctx) EmptyString));
      cbn [bind deref negb]; [discriminate|].
    intros E. injection E as _ <-. congruence.
Qed.

End Transaction.

Section Writes.
Context {tx : Tx}.

Lemma collect_extends {C A : Type} (make : C -> A) (count : C -> Z)
    (items : list (scanned C)) (acc records : list A) (n m : Z) :
  collect make count items acc n = inl (records, m) ->
  exists more, records = (acc ++ more)%list.
Proof.
  revert acc n. induction items as [|[c|e] rest IH]; intros acc n; simpl.
  - intros E. injection E as <- _. exists []. symmetry. apply List.app_nil_r.
  - intros E. destruct (IH _ _ E) as [more ->].
    exists (make c :: more). rewrite <- List.app_assoc. reflexivity.
  - discriminate.
Qed.

Lemma first_found {C A : Type} (make : C -> A) (count : C -> Z)
    (rows : Rows C) (e : option error) (a : A) (rest : list A) (n : Z) :
  found make count (rows, e) = (a :: rest, n, None) ->
  e = None /\ Rows_Err rows = None
  /\ exists c more, Rows_items rows = Scanned c :: more /\ a = make c.
Proof.
  unfold found. destruct e as [e|]; [discriminate|].
  destruct (collect make count (Rows_items rows) [] 0) as [[rs m]|e] eqn:Ec;
    [|discriminate].
  destruct (Rows_Err rows); [discriminate|].
  intros E. injection E as -> _.
  split; [reflexivity|]. split; [reflexivity|].
  destruct (Rows_items rows) as [|[c|e] more]; simpl in Ec.
  - discriminate.
  - destruct (collect_extends _ _ _ _ _ _ _ Ec) as [tl Htl].
    simpl in Htl. injection Htl as -> _. exists c, more. auto.
  - discriminate.
Qed.

(** X23: [findSessionForToken] asks the store one question: a statement
    whose text is fixed, with the id and the token bound to its two
    placeholders and never written into the text.  It returns the error of
    the query, of a [Scan] or of the rows if there is one, "Session not
    found." if there is no row, and the session of the first row
    otherwise. *)
Theorem findSessionForToken_query (h : store) (ctx : Context)
    (id token : string) :
  findSessionForToken h ctx id token
  = Return (firstSession
              (found sessionOf sc_count
                 (QuerySessions ctx (tokenStatement id token))))
  /\ (forall s,
        findSessionForToken h ctx id token = Return (Some s, None) ->
        exists c more,
          Rows_items (fst (QuerySessions ctx (tokenStatement id token)))
          = Scanned c :: more
          /\ s = sessionOf c).
Proof.
  assert (E : findSessionForToken h ctx id token
              = Return (firstSession
                          (found sessionOf sc_count
                             (QuerySessions ctx (tokenStatement id token))))).
  { unfold findSessionForToken, findSessions, condition. cbn [alloc].
    cbn [SessionFilter_ID SessionFilter_UserID SessionFilter_Token
         SessionFilter_Limit SessionFilter_Offset].
    rewrite load_alloc_older. cbn [bind fst snd].
    rewrite load_alloc. cbn [bind fst snd List.app].
    reflexivity. }
  split; [exact E|].
  intros s Hs. rewrite E in Hs. injection Hs as Hs.
  destruct (QuerySessions ctx (tokenStatement id token)) as [rows e].
  unfold firstSession in Hs.
  destruct (found sessionOf sc_count (rows, e)) as [[records n] err] eqn:Ef.
  destruct records as [|r rest], err as [e0|]; try discriminate Hs.
  injection Hs as ->.
  destruct (first_found _ _ _ _ _ _ _ Ef) as [_ [_ [c [more [Hi Hs]]]]].
  exists c, more. auto.
Qed.

(** X24: [createSession] writes only a session that [Validate] accepts.
    If it has executed anything, that is the one INSERT, with the id given
    by the database, the user id and the token of the session and the time
    of the transaction as arguments; the session is left with that id and
    that time, and the error returned is the one of the statement.  The
    user of the context is not consulted. *)
Theorem createSession_writes (ctx : Context) (s : Session)
    (after : option Session) (err : option error) (log : list statement) :
  createSession ctx (Some s) = Return ((after, err), log) ->
  log <> [] ->
  Session_Validate (Some s) = Return None
  /\ exists id,
       ID = (id, None)
       /\ log = [sessionInsert id (Session_UserID s) (Session_Token s)]
       /\ after = Some (mkSession id (Session_UserID s) (Session_Token s) now)
       /\ err = ExecContext ctx
                  (sessionInsert id (Session_UserID s) (Session_Token s)).
Proof.
  unfold createSession.
  destruct (Session_Validate (Some s)) as [[e|]|msg]; cbn [bind];
    [intros E; injection E as _ _ <-; congruence | | discriminate].
  destruct ID as [id [e|]];
    [intros E; injection E as _ _ <-; congruence|].
  cbn [deref bind]. intros E _. injection E as <- <- <-.
  split; [reflexivity|]. exists id. repeat split.
Qed.

(** X25: [createTag] writes only a valid tag of the acting user.  If it
    has executed anything, the tag passed [Validate], the context has a
    user that is no demo user and whose id is the tag's user id, and the
    statement is the one INSERT, with the id given by the database, the
    time of the transaction as creation and update time, and 0 as removal
    time. *)
Theorem createTag_writes (ctx : Context) (t : Tag)
    (after : option Tag) (err : option error) (log : list statement) :
  createTag ctx (Some t) = Return ((after, err), log) ->
  log <> [] ->
  Tag_Validate (Some t) = Return None
  /\ (exists u, UserFromContext ctx = Some u /\ User_IsDemo u = false
                /\ User_ID u = Tag_UserID t)
  /\ exists id,
       ID = (id, None)
       /\ log = [tagInsert id (Tag_UserID t) (Tag_Name t)]
       /\ after = Some (mkTag id (Tag_UserID t) (Tag_Name t) now now
                          (Tag_RemovedAt t)).
Proof.
  unfold createTag.
  destruct (Tag_Validate (Some t)) as [[e|]|msg]; cbn [bind];
    [intros E; injection E as _ _ <-; congruence | | discriminate].
  destruct (CanUpdateTag ctx (Some t)) as [[|]|msg] eqn:Ecan; cbn [bind negb];
    [| intros E; injection E as _ _ <-; congruence | discriminate].
  destruct ID as [id [e|]];
    [intros E; injection E as _ _ <-; congruence|].
  cbn [deref bind]. intros E _. injection E as <- _ <-.
  split; [reflexivity|]. split.
  - apply PolicyMore.CanUpdateTag_true_inv. exact Ecan.
  - exists id. repeat split.
Qed.

End Writes.

Section Users.
Context {tx : Tx}.

Lemma findUsers_returns (h : store) (ctx : Context) (p : addr) :
  (p < List.length h)%nat ->
  exists res, findUsers h ctx (mkUserFilter (Some p) None 0 1) = Return res.
Proof.
  intros Hp. unfold findUsers.
  destruct (CanFindUser h ctx (mkUserFilter (Some p) None 0 1));
    cbn [negb]; [|eexists; reflexivity].
  unfold condition. cbn [UserFilter_ID UserFilter_Username load].
  destruct (nth_error h p) as [v|] eqn:E.
  - cbn [deref bind]. eexists. reflexivity.
  - apply List.nth_error_None in E. lia.
Qed.

Lemma findUserByID_returns (h : store) (ctx : Context) (id : string) :
  exists res, findUserByID h ctx id = Return res.
Proof.
  unfold findUserByID. cbn [alloc].
  destruct (findUsers_returns (h ++ [id])%list ctx (List.length h)) as [res E].
  { rewrite List.length_app. simpl. lia. }
  rewrite E. eexists. reflexivity.
Qed.

End Users.

Lemma FindUserByID_returns {db : DB} (h : store) (ctx : Context) (id : string) :
  exists res, UserService_FindUserByID h ctx id = Return res.
Proof.
  unfold UserService_FindUserByID. destruct (BeginTx ctx) as [tx|e];
    [|eexists; reflexivity].
  destruct (@findUserByID_returns tx h ctx id) as [[user [e|]] E];
    rewrite E; eexists; reflexivity.
Qed.

Lemma FindUserByID_refused {db : DB} (h : store) (ctx : Context) (id : string) :
  CanCreateUser ctx = false ->
  exists e, UserService_FindUserByID h ctx id = Return (None, Some e).
Proof.
  intros Hc. unfold UserService_FindUserByID.
  destruct (BeginTx ctx) as [tx|e]; [|exists e; reflexivity].
  rewrite findUserByID_unauthorized by exact Hc.
  eexists. reflexivity.
Qed.

(** X26: users are found by admins only.  For a context whose user is no
    admin, and for a context without a user, [findUserByID] and
    [findUserByUsername] fail with the error of code [EUNAUTHORIZED] "You are
    not allowed to search using this filter." without asking the store; the
    service method [FindUserByID] returns no user and an error whatever the
    database, and [ShouldRunSetup], which counts the users, returns [false]
    and an error. *)
Theorem users_found_by_admins_only {db : DB} (tx : Tx) (h : store)
    (ctx : Context) (id : string) :
  CanCreateUser ctx = false ->
  @findUserByID tx h ctx id = Return (None, Some unauthorizedFilter)
  /\ @findUserByUsername tx h ctx id = Return (None, Some unauthorizedFilter)
  /\ (exists e, UserService_FindUserByID h ctx id = Return (None, Some e))
  /\ (exists e, SetupService_ShouldRunSetup h ctx = Return (false, Some e)).
Proof.
  intros Hc. split; [apply findUserByID_unauthorized, Hc|].
  split; [|split; [apply FindUserByID_refused, Hc|]].
  - unfold findUserByUsername, findUsers. cbn [alloc].
    rewrite CanFindUser_admin by exact I. rewrite Hc. reflexivity.
  - unfold SetupService_ShouldRunSetup.
    destruct (BeginTx ctx) as [tx'|e]; [|exists e; reflexivity].
    unfold findUsers. rewrite CanFindUser_admin by exact I.
    rewrite Hc. eexists. reflexivity.
Qed.

Section Server.
Import http Authenticator Resolution.
Context {W : Type} `{ResponseWriter W} `{SessionService} `{UserService}.
Context {db : DB} (h : store).

(** X27: with the user service of package sqlite behind it, [authenticate]
    identifies nobody.  The user is looked up with the context of the
    request, in which there is no user yet, and that lookup is refused; so
    the request is handed on unchanged, whatever its cookies and whatever
    the session store and the database hold. *)
Theorem authenticate_sqlite_identifies_nobody (next : Handler) (w : W)
    (r : Request) :
  (forall ctx id, UserService_FindUserByID h ctx id
                  = Return (FindUserByID ctx id)) ->
  CanCreateUser (Ctx r) = false ->
  authenticate next w r = next w r.
Proof.
  intros Hus Hc.
  destruct (resolve_cases r) as [Ha|[session [user Hr]]];
    [apply authenticate_anonymous, Ha|].
  exfalso. destruct Hr as [sid tok _ _ _ Hu].
  destruct (FindUserByID_refused h (Ctx r) (Session_UserID session) Hc)
    as [e He].
  rewrite Hus, Hu in He. discriminate He.
Qed.

End Server.

Lemma testUsers_is_sqlite (ctx : Context) (id : string) :
  UserService_FindUserByID (H := testDB) [] ctx id
  = Return (@http.FindUserByID testUsers ctx id).
Proof.
  unfold http.FindUserByID, testUsers.
  destruct (FindUserByID_returns (db := testDB) [] ctx id) as [res ->].
  reflexivity.
Qed.

Lemma authenticate_sqlite_identifies_nobody_witness :
  @http.authenticate _ Resolution.oneSession testUsers Resolution.serve []
    aliceCookies
  = [Resolution.Served None None].
Proof.
  refine (eq_trans
            (authenticate_sqlite_identifies_nobody (H1 := testUsers)
               (db := testDB) [] Resolution.serve [] aliceCookies
               testUsers_is_sqlite eq_refl) _).
  reflexivity.
Defined.

Lemma users_found_by_admins_only_witness :
  @findUserByID testTx [] (asUser alice) "alice"
  = Return (None, Some unauthorizedFilter).
Proof.
  exact (proj1 (users_found_by_admins_only (db := testDB) testTx []
                  (asUser alice) "alice" eq_refl)).
Defined.

Lemma tags_never_found_witness :
  @removeTag testTx [] (asUser alice) "t1"
  = Return (Some unauthorizedFilter, []).
Proof.
  exact (proj2 (proj2 (proj2
           (tags_never_found (tx := testTx) [] (asUser alice) "t1"
              (mkTagUpdate None) (mkTagFilter None None 0 1) I)))).
Defined.

Lemma findUsers_never_demo_witness :
  Forall (fun u => User_IsDemo u = false)
    [mkUser "alice" "alice" "secret-a" false false 0 0 0].
Proof.
  exact (findUsers_never_demo (tx := testTx) []
           (NewContextWithUser []
              (Some (mkUser "root" "root" "secret-r" true false 0 0 0)))
           (mkUserFilter None None 0 1) _ 1 None eq_refl).
Defined.

Lemma deleteSession_owner_only_witness :
  @deleteSession testTx [] (asUser alice) "s1"
  = Return (None, [deleteStatement "s1"])
  /\ exists u s,
       UserFromContext (asUser alice) = Some u /\ User_ID u <> EmptyString
       /\ @findSessionByID testTx [] (asUser alice) "s1" = Return (Some s, None)
       /\ Session_UserID s = User_ID u.
Proof.
  split; [reflexivity|].
  apply (deleteSession_owner_only (tx := testTx) [] (asUser alice) "s1" None
           [deleteStatement "s1"] eq_refl).
  discriminate.
Defined.

Lemma findSessionForToken_query_witness :
  exists c more,
    Rows_items
      (fst (@QuerySessions testTx [] (@tokenStatement testTx "s1" aliceToken)))
    = Scanned c :: more
    /\ mkSession "s1" "alice" aliceToken 0 = sessionOf c.
Proof.
  apply (proj2 (findSessionForToken_query (tx := testTx) [] [] "s1" aliceToken)).
  reflexivity.
Defined.

Lemma createSession_writes_witness :
  @Session_Validate (Some (mkSession "" "alice" aliceToken 0)) = Return None
  /\ exists id,
       @ID testTx = (id, None)
       /\ [@sessionInsert testTx "id-1" "alice" aliceToken]
          = [@sessionInsert testTx id "alice" aliceToken]
       /\ Some (mkSession "id-1" "alice" aliceToken 1700000000)
          = Some (mkSession id "alice" aliceToken (@now testTx))
       /\ None
          = @ExecContext testTx [] (@sessionInsert testTx id "alice" aliceToken).
Proof.
  apply (createSession_writes (tx := testTx) []
           (mkSession "" "alice" aliceToken 0)
           (Some (mkSession "id-1" "alice" aliceToken 1700000000)) None
           [@sessionInsert testTx "id-1" "alice" aliceToken] eq_refl).
  discriminate.
Defined.

Lemma createTag_writes_witness :
  exists u, UserFromContext (asUser alice) = Some u /\ User_IsDemo u = false
            /\ User_ID u = "alice".
Proof.
  apply (proj1 (proj2
           (createTag_writes (tx := testTx) (asUser alice)
              (mkTag "" "alice" "sea" 0 0 0)
              (Some (mkTag "id-1" "alice" "sea" 1700000000 1700000000 0))
              None [@tagInsert testTx "id-1" "alice" "sea"] eq_refl
              ltac:(discriminate)))).
Defined.

Section Passwords.
Context {D : argon2.Digest}.

Lemma verify_hashed (password salt : string) :
  List.length (argon2.deriveKey (list_byte_of_string password)
                 (list_byte_of_string salt)
                 auth.ArgonTime auth.ArgonMemory auth.ArgonThreads
                 auth.ArgonKeyLen)
  = Z.to_nat auth.ArgonKeyLen ->
  password <> EmptyString -> salt <> EmptyString ->
  exists key,
    auth.HashPassword password salt = Return (key, None)
    /\ auth.VerifyPassword password key = Return None.
Proof.
  intros Hlen Hpw Hsalt.
  eexists. split; [apply Keys.HashPassword_ok; assumption|].
  rewrite Credentials.VerifyPassword_formatKey
    by (try assumption;
        unfold auth.ArgonMemory, auth.ArgonTime, auth.ArgonThreads; lia).
  rewrite Hlen.
  change (Z.of_nat (Z.to_nat auth.ArgonKeyLen) mod 2 ^ 32)
    with auth.ArgonKeyLen.
  unfold argon2.IDKey.
  change (auth.ArgonTime <? 1) with false.
  change (auth.ArgonThreads <? 1) with false.
  change (auth.ArgonKeyLen =? 0) with false.
  cbn [bind].
  rewrite (proj2 (Credentials.bytes_eqb_eq _ _) eq_refl). reflexivity.
Qed.

(** X28: [hashPassword] of package sqlite, on a database that has the
    service of package auth and a generator with 16 bytes left, returns for
    a password that is not empty a key that [VerifyPassword] accepts for that
    password, and takes exactly 16 bytes from the generator; the salt hashed
    is the encoded text of those bytes.  On a database without a service it
    returns the error "AuthService required." of code [EINVALID] and takes
    nothing. *)
Theorem hashPassword_verifies (tx : Tx) (r : rand.Reader) (password : string) :
  (@AuthServiceOf tx = None ->
   @hashPassword tx r password
   = Return ((EmptyString, Some (Error EINVALID "AuthService required.")), r))
  /\ (@AuthServiceOf tx = Some authService ->
      password <> EmptyString -> 16 <= Z.of_nat (List.length r) ->
      List.length
        (argon2.deriveKey (list_byte_of_string password)
           (list_byte_of_string (auth.EncodeToBase64String (firstn 16 r)))
           auth.ArgonTime auth.ArgonMemory auth.ArgonThreads auth.ArgonKeyLen)
      = Z.to_nat auth.ArgonKeyLen ->
      exists key,
        @hashPassword tx r password = Return ((key, None), skipn 16 r)
        /\ auth.HashPassword password
             (auth.EncodeToBase64String (firstn 16 r)) = Return (key, None)
        /\ auth.VerifyPassword password key = Return None).
Proof.
  unfold hashPassword. split.
  - intros ->. reflexivity.
  - intros -> Hpw Hr Hlen.
    cbn [NewSalt HashPassword authService].
    unfold auth.NewSalt. rewrite Keys.newEncoded_enough by lia.
    cbn [bind].
    assert (Hsalt : auth.EncodeToBase64String (firstn (Z.to_nat 16) r)
                    <> EmptyString).
    { intros E. apply (f_equal Alphabet.len) in E.
      unfold auth.EncodeToBase64String in E.
      rewrite Encoding.length_EncodeToString, Keys.length_firstn_Z in E by lia.
      discriminate E. }
    destruct (verify_hashed password _ Hlen Hpw Hsalt) as [key [Hk Hv]].
    exists key. change (Z.to_nat 16) with 16%nat in *.
    rewrite Hk. cbn [bind]. auto.
Qed.

End Passwords.

Lemma hashPassword_verifies_witness :
  exists key,
    @hashPassword (authTx TestVectors.testDigest) (repeat x07 20) "hunter2"
    = Return ((key, None), repeat x07 4)
    /\ @auth.HashPassword TestVectors.testDigest "hunter2"
         (auth.EncodeToBase64String (repeat x07 16)) = Return (key, None)
    /\ @auth.VerifyPassword TestVectors.testDigest "hunter2" key = Return None.
Proof.
  apply (proj2 (hashPassword_verifies (D := TestVectors.testDigest)
                  (authTx TestVectors.testDigest) (repeat x07 20) "hunter2"));
    first [ reflexivity | discriminate | (simpl; lia) ].
Defined.

End Store.

(** * What is issued passes validation *)
Module Issuing.
Import Go gofman validate auth.
Local Open Scope Z_scope.

(** X29: a token made by [NewToken] is long enough for a session: with 32
    bytes in the generator, [NewToken] returns a token with which every
    session that has a user id passes [Session.Validate]; and a password made
    by [NewPassword], with 8 bytes in the generator, is long enough for
    [User.Validate] with any name of 1 to 35 bytes. *)
Theorem issued_values_validate (r : rand.Reader) :
  (32 <= Z.of_nat (List.length r) ->
   exists t, NewToken r = Return ((t, None), skipn 32 r)
     /\ forall id userID createdAt, userID <> EmptyString ->
          Session_Validate (Some (mkSession id userID t createdAt))
          = Return None)
  /\ (8 <= Z.of_nat (List.length r) ->
      exists p, NewPassword r = Return ((p, None), skipn 8 r)
        /\ forall id name admin isDemo c u d,
             1 <= len name <= MaxUsernameLen ->
             User_Validate (Some (mkUser id name p admin isDemo c u d))
             = Return None).
Proof.
  unfold NewToken, NewPassword. split; intros Hr.
  - eexists. split; [apply Keys.newEncoded_enough; lia|].
    intros id userID createdAt Hu.
    unfold Session_Validate. cbn [deref bind Session_UserID Session_Token].
    apply String.eqb_neq in Hu. rewrite Hu.
    assert (Hl : len (EncodeToBase64String (firstn (Z.to_nat 32) r)) = 43).
    { unfold EncodeToBase64String.
      change len with Alphabet.len.
      rewrite Encoding.length_EncodeToString, Keys.length_firstn_Z by lia.
      reflexivity. }
    destruct (String.eqb_spec (EncodeToBase64String (firstn (Z.to_nat 32) r))
                EmptyString) as [E|_].
    { rewrite E in Hl. discriminate Hl. }
    rewrite Hl. reflexivity.
  - eexists. split; [apply Keys.newEncoded_enough; lia|].
    intros id name admin isDemo c u d Hn.
    unfold User_Validate. cbn [deref bind User_Username User_Password].
    assert (Hl : len (EncodeToBase64String (firstn (Z.to_nat 8) r)) = 11).
    { unfold EncodeToBase64String.
      change len with Alphabet.len.
      rewrite Encoding.length_EncodeToString, Keys.length_firstn_Z by lia.
      reflexivity. }
    destruct (String.eqb_spec name EmptyString) as [E|_].
    { subst name. unfold len in Hn. simpl in Hn. lia. }
    destruct (Z.ltb_spec MaxUsernameLen (len name)); [lia|].
    destruct (String.eqb_spec (EncodeToBase64String (firstn (Z.to_nat 8) r))
                EmptyString) as [E|_].
    { rewrite E in Hl. discriminate Hl. }
    rewrite Hl. reflexivity.
Qed.

Lemma issued_values_validate_witness :
  exists t, NewToken (repeat x07 32) = Return ((t, None), [])
    /\ forall id userID createdAt, userID <> EmptyString ->
         Session_Validate (Some (mkSession id userID t createdAt))
         = Return None.
Proof.
  apply (proj1 (issued_values_validate (repeat x07 32))). simpl. lia.
Defined.

End Issuing.

(** * Tilde expansion *)
Module Paths.
Import Go gofman path_traversal SystemData.

(** X30: [Expand] leaves every path alone that is not the tilde and does
    not begin with the tilde and the separator: it is returned as it is, with
    no error and without asking for the current user, so whatever the system.
    A path that names another user's home, as in ~bob, is such a path. *)
Theorem Expand_other_paths (s1 s2 : System) (path : string) :
  @PathSeparator s1 = @PathSeparator s2 ->
  path <> "~" ->
  HasPrefix path ("~" ++ String (@PathSeparator s1) EmptyString) = false ->
  @Expand s1 path = (path, None) /\ @Expand s2 path = (path, None).
Proof.
  intros Hsep Hne Hp. unfold Expand. rewrite <- Hsep.
  apply String.eqb_neq in Hne. rewrite Hne, Hp. split; reflexivity.
Qed.

Lemma Expand_other_paths_witness :
  @Expand aliceSystem "~bob/db" = ("~bob/db", None)
  /\ @Expand noUserSystem "~bob/db" = ("~bob/db", None).
Proof.
  apply (Expand_other_paths aliceSystem noUserSystem "~bob/db");
    [reflexivity | discriminate | reflexivity].
Defined.

End Paths.
